(** * E-commerce sales dashboard: the data layer

    A shallow embedding of [src/components/data.py] (the loader, the
    [Data] class with its filter engine and its KPI aggregator, and the
    frames behind some charts of the [Chart] class) and of the call of
    the filter engine in [src/main.py], with the properties that the
    specification states about them and further ones that the code
    shows.

    Conventions of the embedding:
    - a [DataFrame] is the list of its rows, in index order; a row is a
      record of the columns that the data layer reads;
    - a [datetime64] cell is [Some t] (an instant) or [None] (NaT), and
      every comparison against NaT is false, as in pandas;
    - amounts are exact rationals ([Qc]); rounding of binary floating
      point is not modelled;
    - the [filters] dictionary is a finite map from keys to Python
      values ([None] or a sequence);
    - a string is the sequence of its characters, each of a code below
      256, and strings are ordered as Python orders them, character by
      character;
    - methods of [Data] are computations in a state-and-exception monad
      over the fields of [self]: an exception leaves the assignments
      made before it in place, as in Python. *)

From Stdlib Require Import QArith Qcanon Lqa Ascii.
From stdpp Require Import base option list gmap strings sorting.

Local Open Scope string_scope.
Local Open Scope Z_scope.

#[local] Set Warnings "-clear-no-such-hyp".

(** ** Exceptions and results *)

Inductive exn : Set :=
  | IndexError
  | ValueError
  | ZeroDivisionError
  | FileNotFoundError.

Inductive result (A : Type) : Type :=
  | Return (a : A)
  | Raise (e : exn).
Global Arguments Return {A} a.
Global Arguments Raise {A} e.

Global Instance result_ret : MRet result := λ A a, Return a.
Global Instance result_bind : MBind result := λ A B f m,
  match m with
  | Return a => f a
  | Raise e => Raise e
  end.

(** ** Cells, rows and frames *)

(** [Some t]: the instant [t]; [None]: NaT. *)
Definition Timestamp : Type := option Z.

(** [a <= b] on a datetime column: false as soon as one side is NaT. *)
Definition ts_le (a b : Timestamp) : bool :=
  match a, b with
  | Some x, Some y => bool_decide (x ≤ y)
  | _, _ => false
  end.

Record Row : Type := mkRow {
  order_date : Timestamp;
  sales_per_order : Qc;
  profit_per_order : Qc;
  customer_region : string;
  category_name : string;
  customer_segment : string;
  delivery_status : string;
  shipping_type : string
}.

Abbreviation DataFrame := (list Row).

(** ** Python values held by the filter dictionary *)

(** An element of a filter value: a date (already an instant) or a
    string. *)
Inductive atom : Set :=
  | ADate (t : Z)
  | AStr (s : string).

Inductive pyval : Set :=
  | PyNone
  | PySeq (items : list atom).

Global Instance atom_eq_dec : EqDecision atom.
Proof. solve_decision. Defined.

Global Instance pyval_eq_dec : EqDecision pyval.
Proof. solve_decision. Defined.

(** [bool(v)]: [None] and empty sequences are falsy. *)
Definition truthy (v : pyval) : bool :=
  match v with
  | PyNone => false
  | PySeq [] => false
  | PySeq (_ :: _) => true
  end.

(** [v[i]] on a sequence. The code subscripts a value only after it
    has tested it truthy, hence never [None]. *)
Definition getitem (v : pyval) (i : nat) : result atom :=
  match v with
  | PyNone => Raise IndexError
  | PySeq items =>
      match items !! i with
      | Some a => Return a
      | None => Raise IndexError
      end
  end.

(** [d.get(key)]: [None] when the key is absent. *)
Definition dict_get (d : gmap string pyval) (key : string) : pyval :=
  match d !! key with
  | Some v => v
  | None => PyNone
  end.

(** [values and len(values) > 0]; [and] does not evaluate [len] on a
    falsy value. *)
Definition active (values : pyval) : bool :=
  match values with
  | PyNone => false
  | PySeq items => truthy (PySeq items) && bool_decide (0 < length items)%nat
  end.

(** [series.isin(values)] at one string cell. *)
Definition isin (cell : string) (values : pyval) : bool :=
  match values with
  | PyNone => false
  | PySeq items => bool_decide (AStr cell ∈ items)
  end.

(** ** The [Data] object *)

Record Data : Type := mkData {
  df : DataFrame;
  filtered_df : DataFrame;
  filters : gmap string pyval
}.

Definition M (A : Type) : Type := Data → result A * Data.

Global Instance M_ret : MRet M := λ A a self, (Return a, self).
Global Instance M_bind : MBind M := λ A B f m self,
  match m self with
  | (Return a, self') => f a self'
  | (Raise e, self') => (Raise e, self')
  end.

(** Read a field of [self]. *)
Definition gets {A : Type} (field : Data → A) : M A :=
  λ self, (Return (field self), self).

(** Run a computation that does not touch [self]. *)
Definition lift {A : Type} (r : result A) : M A :=
  λ self, (r, self).

(** [self.filtered_df = v] *)
Definition set_filtered_df (v : DataFrame) : M unit :=
  λ self, (Return tt,
           {| df := df self; filtered_df := v; filters := filters self |}).

(** [self.filters.update(kwargs)]: the keys of [kwargs] are overwritten,
    the others are kept. *)
Definition update_filters (kwargs : gmap string pyval) : M unit :=
  λ self, (Return tt,
           {| df := df self; filtered_df := filtered_df self;
              filters := kwargs ∪ filters self |}).

(** The five categorical columns of the loop in [apply_filters], each
    with the accessor of its cell. *)
Definition categorical_columns : list (string * (Row → string)) :=
  [ ("customer_region", customer_region);
    ("category_name", category_name);
    ("customer_segment", customer_segment);
    ("delivery_status", delivery_status);
    ("shipping_type", shipping_type) ].

(** The initial filter dictionary of [Data.__init__]. *)
Definition no_filters : gmap string pyval :=
  {[ "customer_region" := PyNone;
     "category_name" := PyNone;
     "customer_segment" := PyNone;
     "delivery_status" := PyNone;
     "shipping_type" := PyNone;
     "date_range" := PyNone ]}.

(** [pd.to_datetime] on a string: the parsed instant (possibly NaT), or
    an exception. The parser belongs to pandas; the engine is
    parametric in it. *)
Class ToDatetime : Type :=
  to_datetime_str : string → result Timestamp.

Section FilterEngine.

Context `{ToDatetime}.

(** [pd.to_datetime(a)] for one element of the date range. *)
Definition to_datetime (a : atom) : result Timestamp :=
  match a with
  | ADate t => Return (Some t)
  | AStr s => to_datetime_str s
  end.

(** One turn of the loop over the categorical columns. *)
Definition filter_column (fs : gmap string pyval) (frame : DataFrame)
    (col : string * (Row → string)) : DataFrame :=
  let values := dict_get fs col.1 in
  if active values then filter (λ r, isin (col.2 r) values = true) frame
  else frame.

Definition apply_filters : M unit :=
  frame ← gets df;
  date_range ← gets (λ self, dict_get (filters self) "date_range");
  frame ← (if truthy date_range then
             a0 ← lift (getitem date_range 0);
             start_date ← lift (to_datetime a0);
             a1 ← lift (getitem date_range 1);
             end_date ← lift (to_datetime a1);
             mret (filter (λ r, ts_le start_date (order_date r)
                                && ts_le (order_date r) end_date = true)
                          frame)
           else mret frame);
  fs ← gets filters;
  set_filtered_df (foldl (filter_column fs) frame categorical_columns).

Definition set_filters (kwargs : gmap string pyval) : M unit :=
  _ ← update_filters kwargs;
  apply_filters.

End FilterEngine.

(** ** The KPI aggregator *)

(** [a / b] on numbers; division by zero is an error of the model, so
    that the guards of [compute_kpis] have something to guard. *)
Definition truediv (a b : Qc) : result Qc :=
  if decide (b = 0%Qc) then Raise ZeroDivisionError else Return (a / b)%Qc.

(** [series.sum()] on a numeric column; [0] on the empty column. *)
Definition series_sum (s : list Qc) : Qc := foldr Qcplus 0%Qc s.

(** [mask.sum()] on a boolean column: the number of [True] entries. *)
Definition mask_sum (mask : list bool) : nat :=
  foldr (λ b n, (Nat.b2n b + n)%nat) 0%nat mask.

(** [df['delivery_status'] == status] *)
Definition status_mask (status : string) (frame : DataFrame) : list bool :=
  (λ r, bool_decide (delivery_status r = status)) <$> frame.

(** An integer used as a number in a division or a product. *)
Definition Qc_of_Z (z : Z) : Qc := Q2Qc (inject_Z z).
Definition Qc_of_nat (n : nat) : Qc := Qc_of_Z (Z.of_nat n).

Record KPIs : Type := mkKPIs {
  total_revenue : Qc;
  total_profit : Qc;
  total_orders : nat;
  profit_margin : Qc;
  avg_order_value : Qc;
  on_time_rate : Qc;
  late_deliveries : nat
}.

(** The body of [compute_kpis] once [df = self.filtered_df] is bound. *)
Definition kpis (frame : DataFrame) : result KPIs :=
  let total_revenue := series_sum (sales_per_order <$> frame) in
  let total_profit := series_sum (profit_per_order <$> frame) in
  let total_orders := length frame in
  profit_margin ←
    (if bool_decide (0 < total_revenue)%Qc
     then q ← truediv total_profit total_revenue; mret (q * Qc_of_Z 100)%Qc
     else mret 0%Qc);
  avg_order_value ←
    (if bool_decide (0 < total_orders)%nat
     then truediv total_revenue (Qc_of_nat total_orders)
     else mret 0%Qc);
  on_time_rate ←
    (if bool_decide (0 < total_orders)%nat
     then q ← truediv (Qc_of_nat (mask_sum (status_mask "Shipping on time" frame)))
                      (Qc_of_nat total_orders);
          mret (q * Qc_of_Z 100)%Qc
     else mret 0%Qc);
  let late_deliveries := mask_sum (status_mask "Late delivery" frame) in
  mret (mkKPIs total_revenue total_profit total_orders profit_margin
               avg_order_value on_time_rate late_deliveries).

Definition compute_kpis : M KPIs :=
  frame ← gets filtered_df;
  lift (kpis frame).

(** ** Construction and the cached loader *)

(** [Data.__init__] after [load_data] has returned [loaded]. The column
    [order_date] of [loaded] already holds instants, which the second
    [pd.to_datetime] of the constructor returns unchanged. *)
Definition init (loaded : DataFrame) : Data :=
  {| df := loaded; filtered_df := loaded; filters := no_filters |}.

(** What [load_data] has from pandas: the files as [pd.read_csv] sees
    them, the frame as it returns it (dates still text),
    [pd.read_csv(csv_file, encoding="cp1252")] itself, and the
    conversion [df['order_date'] = pd.to_datetime(df['order_date'],
    format="%d-%m-%Y")]. Either call may raise. *)
Class Pandas : Type := {
  FileSystem : Type;
  RawFrame : Type;
  read_csv : FileSystem → string → result RawFrame;
  parse_order_date : RawFrame → result DataFrame
}.

Section Loader.

Context `{Pandas}.

(** The files and the table of [st.cache_data], keyed by the argument
    of [load_data]. *)
Record World : Type := mkWorld {
  files : FileSystem;
  cache : gmap string DataFrame
}.

Definition IO (A : Type) : Type := World → result A * World.

(** The undecorated function. *)
Definition load_data_body (fs : FileSystem) (csv_file : string)
    : result DataFrame :=
  raw ← read_csv fs csv_file;
  parse_order_date raw.

(** [load_data] under [@st.cache_data]: a stored result is handed out
    (as a private copy) without running the body; a result is stored
    when the body returns, not when it raises. *)
Definition load_data (csv_file : string) : IO DataFrame := λ w,
  match cache w !! csv_file with
  | Some frame => (Return frame, w)
  | None =>
      match load_data_body (files w) csv_file with
      | Return frame =>
          (Return frame,
           {| files := files w; cache := <[csv_file := frame]> (cache w) |})
      | Raise e => (Raise e, w)
      end
  end.

(** [Data(csv_file)] *)
Definition new_Data (csv_file : string) : IO Data := λ w,
  match load_data csv_file w with
  | (Return loaded, w') => (Return (init loaded), w')
  | (Raise e, w') => (Raise e, w')
  end.

(** The files change between two interactions; the cache stays. *)
Definition rewrite_files (fs : FileSystem) (w : World) : World :=
  {| files := fs; cache := cache w |}.

End Loader.

(** ** The file and its order dates *)

(** A row of the frame that [pd.read_csv] returns: the order date is
    still the text of its cell, [None] where pandas reads the cell as
    missing (NaN); [raw_columns] holds the other columns, its date is
    the one that the conversion assigns. *)
Record RawRow : Type := mkRawRow {
  raw_order_date : option string;
  raw_columns : Row
}.

(** A file as [pd.read_csv(csv_file, encoding="cp1252")] takes it: a
    table with the columns of the schema, or content that it cannot
    read as one. A path that the map lacks has no file. *)
Inductive file : Type :=
  | Table (rows : list RawRow)
  | Garbled.

Definition read_table (fs : gmap string file) (csv_file : string)
    : result (list RawRow) :=
  match fs !! csv_file with
  | Some (Table rows) => Return rows
  | Some Garbled => Raise ValueError
  | None => Raise FileNotFoundError
  end.

(** *** The calendar *)

Definition is_leap (year : Z) : bool :=
  bool_decide (year mod 4 = 0) && negb (bool_decide (year mod 100 = 0))
  || bool_decide (year mod 400 = 0).

Definition days_in_month (year month : Z) : Z :=
  if bool_decide (month = 2) then (if is_leap year then 29 else 28)
  else if bool_decide (month ∈ [4; 6; 9; 11]) then 30
  else 31.

(** [datetime.date(year, month, day)] is a date. *)
Definition valid_date (year month day : Z) : bool :=
  bool_decide (1 ≤ year ≤ 9999)
  && bool_decide (1 ≤ month ≤ 12)
  && bool_decide (1 ≤ day ≤ days_in_month year month).

(** The instant of the midnight that begins the day, counted in days
    from 1970-01-01. *)
Definition days_from_civil (year month day : Z) : Z :=
  let y := if bool_decide (month ≤ 2) then year - 1 else year in
  let era := y / 400 in
  let yoe := y - era * 400 in
  let mp := (month + 9) mod 12 in
  let doy := (153 * mp + 2) / 5 + day - 1 in
  let doe := yoe * 365 + yoe / 4 - yoe / 100 + doy in
  era * 146097 + doe - 719468.

(** *** The format ["%d-%m-%Y"] *)

Definition digit_of (c : Ascii.ascii) : option Z :=
  let n := Z.of_N (Ascii.N_of_ascii c) in
  if bool_decide (48 ≤ n ≤ 57) then Some (n - 48) else None.

(** [val.split("-")] *)
Fixpoint split_dash (val : string) : list string :=
  match val with
  | EmptyString => [EmptyString]
  | String c rest =>
      if decide (c = "-"%char) then EmptyString :: split_dash rest
      else match split_dash rest with
           | field :: fields => String c field :: fields
           | [] => [String c EmptyString]
           end
  end.

(** The directive [%d]: [3[0-1]|[1-2]\d|0[1-9]|[1-9]| [1-9]]. *)
Definition day_directive (field : string) : option Z :=
  match field with
  | String a (String b EmptyString) =>
      match digit_of a, digit_of b with
      | Some x, Some y =>
          if bool_decide (1 ≤ 10 * x + y ≤ 31) then Some (10 * x + y) else None
      | None, Some y =>
          if decide (a = " "%char) then
            if bool_decide (1 ≤ y) then Some y else None
          else None
      | _, None => None
      end
  | String a EmptyString =>
      match digit_of a with
      | Some x => if bool_decide (1 ≤ x) then Some x else None
      | None => None
      end
  | _ => None
  end.

(** The directive [%m]: [1[0-2]|0[1-9]|[1-9]]. *)
Definition month_directive (field : string) : option Z :=
  match field with
  | String a (String b EmptyString) =>
      match digit_of a, digit_of b with
      | Some x, Some y =>
          if bool_decide (1 ≤ 10 * x + y ≤ 12) then Some (10 * x + y) else None
      | _, _ => None
      end
  | String a EmptyString =>
      match digit_of a with
      | Some x => if bool_decide (1 ≤ x) then Some x else None
      | None => None
      end
  | _ => None
  end.

(** The directive [%Y]: four digits. *)
Definition year_directive (field : string) : option Z :=
  match field with
  | String a (String b (String c (String d EmptyString))) =>
      match digit_of a, digit_of b, digit_of c, digit_of d with
      | Some x, Some y, Some z, Some t =>
          Some (1000 * x + 100 * y + 10 * z + t)
      | _, _, _, _ => None
      end
  | _ => None
  end.

(** The strings that [pd.to_datetime] reads as NaT. *)
Definition nat_strings : list string :=
  ["NaT"; "nat"; "NAT"; "nan"; "NaN"; "NAN"].

(** [pd.to_datetime(val, format="%d-%m-%Y")] on the text of one cell:
    NaT on the empty text and on the NaT strings; else the whole text
    has to match the format and to name a day of the calendar. The
    bounds of [datetime64] are not modelled. *)
Definition strptime (val : string) : result Timestamp :=
  if decide (val = "" ∨ val ∈ nat_strings) then Return None
  else
    match split_dash val with
    | [d; m; y] =>
        match day_directive d, month_directive m, year_directive y with
        | Some day, Some month, Some year =>
            if valid_date year month day
            then Return (Some (days_from_civil year month day))
            else Raise ValueError
        | _, _, _ => Raise ValueError
        end
    | _ => Raise ValueError
    end.

(** The conversion of one cell of the column. *)
Definition convert_cell (cell : option string) : result Timestamp :=
  match cell with
  | None => Return None
  | Some val => strptime val
  end.

(** [df['order_date'] = value] on one row. *)
Definition assign_order_date (value : Timestamp) (row : RawRow) : Row :=
  let r := raw_columns row in
  {| order_date := value;
     sales_per_order := sales_per_order r;
     profit_per_order := profit_per_order r;
     customer_region := customer_region r;
     category_name := category_name r;
     customer_segment := customer_segment r;
     delivery_status := delivery_status r;
     shipping_type := shipping_type r |}.

(** [df['order_date'] = pd.to_datetime(df['order_date'],
    format="%d-%m-%Y")]: the cells are converted in the order of the
    rows, the first that does not convert raises. *)
Fixpoint convert_order_dates (rows : list RawRow) : result DataFrame :=
  match rows with
  | [] => mret []
  | row :: rest =>
      value ← convert_cell (raw_order_date row);
      frame ← convert_order_dates rest;
      mret (assign_order_date value row :: frame)
  end.

(** pandas on files of text. *)
Definition csv : Pandas :=
  {| FileSystem := gmap string file;
     RawFrame := list RawRow;
     read_csv := read_table;
     parse_order_date := convert_order_dates |}.

(** *** The contract of the loader, as the specification words it *)

(** The load-time parse failures of the specification: a bad file
    path, a file that is no table, a malformed date. *)
Definition ParseError (e : exn) : Prop :=
  e = FileNotFoundError ∨ e = ValueError.

(** No table can be read at the path. *)
Definition unreadable (fs : gmap string file) (csv_file : string) : Prop :=
  ∀ rows, fs !! csv_file ≠ Some (Table rows).

(** The text of the cell is a date in the format. *)
Definition matches_format (val : string) : Prop :=
  ∃ d m y day month year,
    split_dash val = [d; m; y]
    ∧ day_directive d = Some day
    ∧ month_directive m = Some month
    ∧ year_directive y = Some year
    ∧ valid_date year month day = true.

(** The cell holds no date: it is missing or one of the NaT strings. *)
Definition no_date (cell : option string) : Prop :=
  match cell with
  | None => True
  | Some val => val = "" ∨ val ∈ nat_strings
  end.

(** Some order date of the file does not match the format. *)
Definition date_mismatch (fs : gmap string file) (csv_file : string) : Prop :=
  ∃ rows row val,
    fs !! csv_file = Some (Table rows)
    ∧ row ∈ rows
    ∧ raw_order_date row = Some val
    ∧ ¬ no_date (Some val)
    ∧ ¬ matches_format val.

(** The record that a row of the file becomes: its order date is what
    the conversion makes of the cell, its other columns are those of
    the row. *)
Definition parsed (row : RawRow) (r : Row) : Prop :=
  convert_cell (raw_order_date row) = Return (order_date r)
  ∧ r = assign_order_date (order_date r) row.

(** The text [DD-MM-YYYY] of a day. *)
Definition digit_char (n : Z) : Ascii.ascii :=
  Ascii.ascii_of_N (Z.to_N (48 + n)).

Definition two_digits (n : Z) : string :=
  String (digit_char (n / 10)) (String (digit_char (n mod 10)) EmptyString).

Definition four_digits (n : Z) : string :=
  String (digit_char (n / 1000))
    (String (digit_char (n / 100 mod 10))
       (String (digit_char (n / 10 mod 10))
          (String (digit_char (n mod 10)) EmptyString))).

Definition dd_mm_yyyy (year month day : Z) : string :=
  two_digits day +:+ "-" +:+ two_digits month +:+ "-" +:+ four_digits year.

(** ** The Filter Set and the Filtered View, as the specification words them *)

(** [a <= b] between instants, as a proposition; it has no instance
    with NaT on either side. *)
Definition ts_leq (a b : Timestamp) : Prop :=
  match a, b with
  | Some x, Some y => x ≤ y
  | _, _ => False
  end.

Global Instance ts_leq_dec a b : Decision (ts_leq a b).
Proof. destruct a, b; simpl; apply _. Defined.

(** The six keys of a Filter Set. *)
Definition filter_keys : list string :=
  categorical_columns.*1 ++ ["date_range"].

(** Every entry of the Filter Set is unset. *)
Definition all_unset (fs : gmap string pyval) : Prop :=
  Forall (λ key, dict_get fs key = PyNone) filter_keys.

(** The categorical dimension [col] lets the record through: its
    filter is unset or empty, or it holds the record's value. *)
Definition allowed (fs : gmap string pyval) (col : string * (Row → string))
    (r : Row) : Prop :=
  match dict_get fs col.1 with
  | PyNone | PySeq [] => True
  | PySeq (a :: items) => AStr (col.2 r) ∈ a :: items
  end.

Global Instance allowed_dec fs col r : Decision (allowed fs col r).
Proof. unfold allowed. destruct (dict_get fs col.1) as [|[|??]]; apply _. Defined.

Section FilterSpec.

Context `{ToDatetime}.

(** The interval [(start, end)] that the date-range entry denotes. *)
Definition date_interval (fs : gmap string pyval)
    : option (Timestamp * Timestamp) :=
  match dict_get fs "date_range" with
  | PySeq (a0 :: a1 :: _) =>
      match to_datetime a0, to_datetime a1 with
      | Return start_date, Return end_date => Some (start_date, end_date)
      | _, _ => None
      end
  | _ => None
  end.

(** A Filter Set: its date-range entry is unset (or empty), or it
    denotes an interval. *)
Definition well_formed (fs : gmap string pyval) : Prop :=
  truthy (dict_get fs "date_range") = true → is_Some (date_interval fs).

(** The date range, when set, holds the record's order date, both
    ends included. *)
Definition in_date_range (fs : gmap string pyval) (r : Row) : Prop :=
  match date_interval fs with
  | Some (start_date, end_date) =>
      ts_leq start_date (order_date r) ∧ ts_leq (order_date r) end_date
  | None => True
  end.

(** The conjunction of all active filters. *)
Definition satisfies (fs : gmap string pyval) (r : Row) : Prop :=
  in_date_range fs r ∧ Forall (λ col, allowed fs col r) categorical_columns.

Global Instance in_date_range_dec fs r : Decision (in_date_range fs r).
Proof. unfold in_date_range. destruct (date_interval fs) as [[??]|]; apply _. Defined.

Global Instance satisfies_dec fs r : Decision (satisfies fs r).
Proof. unfold satisfies. apply _. Defined.

(** The conjunction of the active filters with the categorical
    dimension [key] left out: the date range and the four other
    columns decide, the record's value on [key] does not. *)
Definition satisfies_without (key : string) (fs : gmap string pyval)
    (r : Row) : Prop :=
  in_date_range fs r
  ∧ Forall (λ col, allowed fs col r)
           (filter (λ col, col.1 ≠ key) categorical_columns).

Global Instance satisfies_without_dec key fs r :
  Decision (satisfies_without key fs r).
Proof. unfold satisfies_without. apply _. Defined.

(** The date-range step of [apply_filters], without the state. *)
Definition date_stage (date_range : pyval) (frame : DataFrame)
    : result DataFrame :=
  if truthy date_range then
    a0 ← getitem date_range 0;
    start_date ← to_datetime a0;
    a1 ← getitem date_range 1;
    end_date ← to_datetime a1;
    mret (filter (λ r, ts_le start_date (order_date r)
                       && ts_le (order_date r) end_date = true) frame)
  else mret frame.

(** What [apply_filters] derives from a frame under a filter
    dictionary. *)
Definition view (fs : gmap string pyval) (frame : DataFrame)
    : result DataFrame :=
  frame ← date_stage (dict_get fs "date_range") frame;
  mret (foldl (filter_column fs) frame categorical_columns).

(** The states of a [Data] object: construction, then any calls of
    its two filter methods. *)
Inductive reachable : Data → Prop :=
  | reachable_init loaded : reachable (init loaded)
  | reachable_set_filters kwargs self :
      reachable self → reachable (set_filters kwargs self).2
  | reachable_apply_filters self :
      reachable self → reachable (apply_filters self).2.

End FilterSpec.

(** ** The KPI formulas, as the specification words them *)

(** The number of records whose delivery status is [status]. *)
Definition count_status (status : string) (frame : DataFrame) : nat :=
  length (filter (λ r, delivery_status r = status) frame).

Definition revenue_of (frame : DataFrame) : Qc :=
  series_sum (sales_per_order <$> frame).

Definition profit_of (frame : DataFrame) : Qc :=
  series_sum (profit_per_order <$> frame).

(** The seven formulas over a record set, as the specification words
    them: the margin is [100*profit/revenue], and 0 when the revenue
    is 0. *)
Definition kpi_formulas (frame : DataFrame) : KPIs :=
  {| total_revenue := revenue_of frame;
     total_profit := profit_of frame;
     total_orders := length frame;
     profit_margin :=
       if bool_decide (revenue_of frame = 0%Qc) then 0%Qc
       else (Qc_of_Z 100 * profit_of frame / revenue_of frame)%Qc;
     avg_order_value :=
       if bool_decide (length frame = 0%nat) then 0%Qc
       else (revenue_of frame / Qc_of_nat (length frame))%Qc;
     on_time_rate :=
       if bool_decide (length frame = 0%nat) then 0%Qc
       else (Qc_of_Z 100 * Qc_of_nat (count_status "Shipping on time" frame)
             / Qc_of_nat (length frame))%Qc;
     late_deliveries := count_status "Late delivery" frame |}.

(** The same formulas with the margin formula kept for a revenue
    above 0, and the margin 0 otherwise. *)
Definition kpi_formulas_guarded (frame : DataFrame) : KPIs :=
  {| total_revenue := revenue_of frame;
     total_profit := profit_of frame;
     total_orders := length frame;
     profit_margin :=
       if bool_decide (0 < revenue_of frame)%Qc
       then (Qc_of_Z 100 * profit_of frame / revenue_of frame)%Qc
       else 0%Qc;
     avg_order_value :=
       if bool_decide (length frame = 0%nat) then 0%Qc
       else (revenue_of frame / Qc_of_nat (length frame))%Qc;
     on_time_rate :=
       if bool_decide (length frame = 0%nat) then 0%Qc
       else (Qc_of_Z 100 * Qc_of_nat (count_status "Shipping on time" frame)
             / Qc_of_nat (length frame))%Qc;
     late_deliveries := count_status "Late delivery" frame |}.

(** ** Sample data *)

Definition order_late : Row :=
  mkRow (Some 10) (Qc_of_Z 100) (Qc_of_Z 10)
        "West" "Technology" "Consumer" "Late delivery" "Standard Class".

Definition order_on_time : Row :=
  mkRow (Some 20) (Qc_of_Z 200) (Qc_of_Z (-5))
        "East" "Furniture" "Corporate" "Shipping on time" "First Class".

Definition order_free : Row :=
  mkRow (Some 30) (Qc_of_Z 0) (Qc_of_Z 0)
        "East" "Technology" "Consumer" "Shipping on time" "First Class".

(** A refund: the order brings a negative amount of sales. *)
Definition order_refund : Row :=
  mkRow (Some 40) (Qc_of_Z (-100)) (Qc_of_Z 10)
        "South" "Furniture" "Consumer" "Shipping canceled" "Same Day".

Definition sample_frame : DataFrame := [order_late; order_on_time; order_free].

(** A parser that accepts no string: date ranges are given as dates. *)
Definition no_strings : ToDatetime := λ _, Raise ValueError.

(** The sample frame under a date range that leaves [order_free] out
    and a region filter. *)
Definition sample_data : Data :=
  {| df := sample_frame;
     filtered_df := sample_frame;
     filters := {[ "date_range" := PySeq [ADate 5; ADate 20];
                   "customer_region" := PySeq [AStr "East"; AStr "West"] ]}
                ∪ no_filters |}.

(** Files that hold frames already parsed; a missing file raises. *)
Definition disk : Pandas :=
  {| FileSystem := gmap string DataFrame;
     RawFrame := DataFrame;
     read_csv := λ fs csv_file,
       match fs !! csv_file with
       | Some frame => Return frame
       | None => Raise FileNotFoundError
       end;
     parse_order_date := Return |}.

(** One file on the disk, nothing cached yet. *)
Definition world_start : @World disk :=
  @mkWorld disk {[ "data/ecommerce_sales_data.csv" := sample_frame ]} ∅.

(** The world after a first load, the file then removed. *)
Definition world_file_removed : @World disk :=
  @rewrite_files disk (∅ : gmap string DataFrame)
    (@load_data disk "data/ecommerce_sales_data.csv" world_start).2.

(** Three files of text: the dataset, a file whose dates are written
    year first, and a file that is no table. *)
Definition csv_disk : gmap string file :=
  {[ "data/ecommerce_sales_data.csv" :=
       Table [ mkRawRow (Some "15-03-2021") order_late;
               mkRawRow (Some "1-4-2021") order_on_time;
               mkRawRow None order_free ];
     "data/iso_dates.csv" := Table [ mkRawRow (Some "2021-03-15") order_late ];
     "data/garbled.csv" := Garbled ]}.

Definition csv_start : @World csv := @mkWorld csv csv_disk ∅.

(** The records of the dataset: the 15th of March and the 1st of April
    2021 are the days 18701 and 18718, the missing cell is NaT. *)
Definition csv_dataset : DataFrame :=
  [ assign_order_date (Some 18701) (mkRawRow None order_late);
    assign_order_date (Some 18718) (mkRawRow None order_on_time);
    assign_order_date None (mkRawRow None order_free) ].

(** The dataset loaded once, every file then removed. *)
Definition csv_files_removed : @World csv :=
  @rewrite_files csv (∅ : gmap string file)
    (@load_data csv "data/ecommerce_sales_data.csv" csv_start).2.

(** Five regions, each with an order on time and a profit. *)
Definition five_regions : DataFrame :=
  (λ reg, mkRow (Some 10) (Qc_of_Z 100) (Qc_of_Z 10) reg "Technology"
                "Consumer" "Shipping on time" "Standard Class")
    <$> ["Central"; "East"; "North"; "South"; "West"].

(** The sample frame after the selection of the late deliveries only. *)
Definition late_only : Data :=
  (@set_filters no_strings
     {[ "delivery_status" := PySeq [AStr "Late delivery"] ]}
     (init sample_frame)).2.

(** The sample frame under a date range whose end is before its start. *)
Definition inverted_range : Data :=
  {| df := sample_frame;
     filtered_df := sample_frame;
     filters := {[ "date_range" := PySeq [ADate 20; ADate 5] ]} |}.

(** ** The option lists and the frames behind the charts *)

(** [series.unique()]: the distinct values, in the order of their first
    appearance. *)
Fixpoint unique {A} `{EqDecision A} (s : list A) : list A :=
  match s with
  | [] => []
  | x :: s' => x :: filter (λ y, y ≠ x) (unique s')
  end.

(** [sorted(values)] on strings. *)
Definition sorted (values : list string) : list string :=
  merge_sort String.le values.

(** [Data.unique_values(column)], for a column of labels: it reads the
    full record set, not the Filtered View. *)
Definition unique_values (col : string * (Row → string)) : M (list string) :=
  frame ← gets df;
  mret (sorted (unique (col.2 <$> frame))).

(** The keys of [frame.groupby(column)]: the distinct labels, sorted. *)
Definition groupby_keys (key : Row → string) (frame : DataFrame)
    : list string :=
  sorted (unique (key <$> frame)).

(** The rows of one group. *)
Definition group (key : Row → string) (k : string) (frame : DataFrame)
    : DataFrame :=
  filter (λ r, key r = k) frame.

(** [frame.groupby(column)[value].sum().reset_index()]: one row per
    key, with the sum of the group. *)
Definition groupby_sum (key : Row → string) (value : Row → Qc)
    (frame : DataFrame) : list (string * Qc) :=
  (λ k, (k, series_sum (value <$> group key k frame)))
    <$> groupby_keys key frame.

(** The labels and values of the pie of
    [create_sales_by_category_chart]. *)
Definition category_sales : M (list (string * Qc)) :=
  frame ← gets filtered_df;
  mret (groupby_sum category_name sales_per_order frame).

(** [profit_per_order / sales_per_order * 100] on one row of a frame:
    [None] where pandas gives an infinity or NaN (no sales). *)
Definition row_margin (r : Row) : option Qc :=
  if decide (sales_per_order r = 0%Qc) then None
  else Some (profit_per_order r / sales_per_order r * Qc_of_Z 100)%Qc.

(** [margin.between(-100, 100)]: both ends included; false on an
    infinity and on NaN. *)
Definition between_100 (margin : option Qc) : Prop :=
  match margin with
  | Some m => (Qc_of_Z (-100) ≤ m)%Qc ∧ (m ≤ Qc_of_Z 100)%Qc
  | None => False
  end.

Global Instance between_100_dec margin : Decision (between_100 margin).
Proof. destruct margin; simpl; apply _. Defined.

(** The frame of the box plot of
    [create_profit_margin_by_category_chart]: each row kept goes with
    its margin. *)
Definition margin_frame : M (list (Row * option Qc)) :=
  frame ← gets filtered_df;
  mret (filter (λ p, between_100 p.2) ((λ r, (r, row_margin r)) <$> frame)).

(** [x[:n] + '...' if len(x) > n else x], the shortening of product
    names in the bar charts and tables ([n] is 50 or 40). *)
Definition shorten (n : nat) (x : string) : string :=
  if bool_decide (n < String.length x)%nat
  then String.substring 0 n x +:+ "..."
  else x.

(** ** Sums by two keys *)

(** The order of the keys of a [groupby] on two columns: by the first
    label, then by the second. *)
Definition pair_le (a b : string * string) : Prop :=
  (String.le a.1 b.1 ∧ a.1 ≠ b.1) ∨ (a.1 = b.1 ∧ String.le a.2 b.2).

Global Instance pair_le_dec : RelDecision pair_le.
Proof. intros a b. unfold pair_le. apply _. Defined.

Definition groupby2_keys (key1 key2 : Row → string) (frame : DataFrame)
    : list (string * string) :=
  merge_sort pair_le (unique ((λ r, (key1 r, key2 r)) <$> frame)).

(** [frame.groupby([column1, column2])[value].sum().reset_index()]: one
    row for each pair of labels that occurs, with the sum of its
    records. *)
Definition groupby2_sum (key1 key2 : Row → string) (value : Row → Qc)
    (frame : DataFrame) : list (string * string * Qc) :=
  (λ k, (k, series_sum
              (value <$> filter (λ r, (key1 r, key2 r) = k) frame)))
    <$> groupby2_keys key1 key2 frame.

(** The frame of the bars of [create_sales_by_segment_chart]. *)
Definition segment_sales : M (list (string * string * Qc)) :=
  frame ← gets filtered_df;
  mret (groupby2_sum category_name customer_segment sales_per_order frame).

(** The frame of the bars of
    [create_segment_category_preference_chart]. *)
Definition segment_category : M (list (string * string * Qc)) :=
  frame ← gets filtered_df;
  mret (groupby2_sum customer_segment category_name sales_per_order frame).

(** A bar with its two labels exchanged. *)
Definition swap_labels (bar : string * string * Qc) : string * string * Qc :=
  (bar.1.2, bar.1.1, bar.2).

(** ** The stacked bars of the deliveries by shipping type *)

(** A [go.Bar] trace. *)
Record Bar : Type := mkBar {
  bar_name : string;
  bar_x : list string;
  bar_y : list Qc;
  bar_color : string
}.

Definition status_colors : gmap string string :=
  {[ "Shipping on time" := "#2ca02c";
     "Late delivery" := "#d62728";
     "Advance shipping" := "#13957b";
     "Shipping canceled" := "#7f7f7f" ]}.

(** An entry of [pd.crosstab(shipping_type, delivery_status,
    normalize='index') * 100]: the share, in percent, of the status
    among the records of the shipping type. *)
Definition crosstab_share (frame : DataFrame) (type status : string) : Qc :=
  let rows := group shipping_type type frame in
  (Qc_of_nat (length (group delivery_status status rows))
   / Qc_of_nat (length rows) * Qc_of_Z 100)%Qc.

(** The traces of [create_delivery_by_shipping_type_chart]: one bar
    series for each status (a column of the table), over the shipping
    types (its index). *)
Definition delivery_by_shipping_type : M (list Bar) :=
  frame ← gets filtered_df;
  let types := groupby_keys shipping_type frame in
  mret ((λ status,
           {| bar_name := status;
              bar_x := types;
              bar_y := (λ type, crosstab_share frame type status) <$> types;
              bar_color :=
                match status_colors !! status with
                | Some c => c
                | None => "#13957b"
                end |})
          <$> groupby_keys delivery_status frame).

(** ** The radar chart of the regions *)

(** What the chart code can raise: a column that the frame lacks, a
    list index out of its range, and a division on a column that holds
    no numbers. *)
Inductive chart_exn : Set :=
  | KeyError (column : string)
  | ListIndexError
  | TypeError.

(** The one point where the chart depends on the release of pandas:
    the column [on_time], aggregated by the lambda, of a table of no
    group.  pandas 2 makes it a column of numbers; pandas 3 leaves it
    the dtype of the strings of [delivery_status], which no division
    takes. *)
Class PandasRelease := empty_aggregate_keeps_str : bool.

(** The two releases of pandas, as far as the charts tell them
    apart. *)
Definition pandas_2 : PandasRelease := false.
Definition pandas_3 : PandasRelease := true.

Inductive chart_result (A : Type) : Type :=
  | Done (a : A)
  | Failed (e : chart_exn).
Global Arguments Done {A} a.
Global Arguments Failed {A} e.

Global Instance chart_ret : MRet chart_result := λ A a, Done a.
Global Instance chart_bind : MBind chart_result := λ A B f m,
  match m with
  | Done a => f a
  | Failed e => Failed e
  end.

(** A row of [region_metrics]. *)
Record RegionMetrics : Type := mkRegionMetrics {
  region : string;
  revenue : Qc;
  profit : Qc;
  orders : nat;
  on_time : nat;
  aov : Qc;
  on_time_pct : Qc
}.

(** The aggregation by region, then the two rate columns. *)
Definition region_metrics (frame : DataFrame) : list RegionMetrics :=
  (λ k,
     let rows := group customer_region k frame in
     let revenue := series_sum (sales_per_order <$> rows) in
     let profit := series_sum (profit_per_order <$> rows) in
     let orders := length rows in
     let on_time := mask_sum (status_mask "Shipping on time" rows) in
     {| region := k;
        revenue := revenue;
        profit := profit;
        orders := orders;
        on_time := on_time;
        aov := (revenue / Qc_of_nat orders)%Qc;
        on_time_pct :=
          (Qc_of_nat on_time / Qc_of_nat orders * Qc_of_Z 100)%Qc |})
    <$> groupby_keys customer_region frame.

(** [series.max()]: [None] (NaN) on the empty column. *)
Fixpoint series_max (s : list Qc) : option Qc :=
  match s with
  | [] => None
  | x :: s' =>
      match series_max s' with
      | Some m => Some (if decide (x ≤ m)%Qc then m else x)
      | None => Some x
      end
  end.

(** The metrics that the chart normalises, by column name. *)
Definition metric_columns : list (string * (RegionMetrics → Qc)) :=
  [ ("revenue", revenue);
    ("profit", profit);
    ("orders", λ m, Qc_of_nat (orders m));
    ("aov", aov);
    ("on_time_pct", on_time_pct) ].

(** One turn of the normalisation loop: the column [col_norm] is added
    when the greatest value of [col] is above 0, and only then. *)
Definition add_norm (table : list RegionMetrics)
    (norms : gmap string (list Qc)) (col : string * (RegionMetrics → Qc))
    : gmap string (list Qc) :=
  match series_max (col.2 <$> table) with
  | Some max_val =>
      if bool_decide (0 < max_val)%Qc
      then <[col.1 +:+ "_norm" :=
               (λ m, col.2 m / max_val * Qc_of_Z 100)%Qc <$> table]> norms
      else norms
  | None => norms
  end.

(** The columns that the loop has added. *)
Definition norm_columns (table : list RegionMetrics) : gmap string (list Qc) :=
  foldl (add_norm table) ∅ metric_columns.

(** [region_metrics.loc[region_metrics['customer_region'] == reg,
    column].values[0]] *)
Definition loc_first (table : list RegionMetrics)
    (norms : gmap string (list Qc)) (reg column : string) : chart_result Qc :=
  match norms !! column with
  | None => Failed (KeyError column)
  | Some values =>
      match filter (λ p, region p.1 = reg) (zip table values) with
      | p :: _ => Done p.2
      | [] => Failed ListIndexError
      end
  end.

Definition categories : list string :=
  ["Revenue"; "Profit"; "Orders"; "Avg Order Value"; "On-Time Delivery"].

Definition colors : list string :=
  ["#13957b"; "#ff7f0e"; "#2ca02c"; "#d62728"].

(** A [go.Scatterpolar] trace. *)
Record Trace : Type := mkTrace {
  trace_r : list Qc;
  trace_theta : list string;
  trace_name : string;
  trace_color : string
}.

(** The list [values] of one turn of the loop over the regions. *)
Definition trace_values (table : list RegionMetrics)
    (norms : gmap string (list Qc)) (reg : string) : chart_result (list Qc) :=
  v1 ← loc_first table norms reg "revenue_norm";
  v2 ← loc_first table norms reg "profit_norm";
  v3 ← loc_first table norms reg "orders_norm";
  v4 ← loc_first table norms reg "aov_norm";
  v5 ← loc_first table norms reg "on_time_pct_norm";
  mret [v1; v2; v3; v4; v5].

(** The loop [for idx, region in enumerate(...)], from index [idx] on. *)
Fixpoint radar_traces (table : list RegionMetrics)
    (norms : gmap string (list Qc)) (idx : nat) (regions : list string)
    : chart_result (list Trace) :=
  match regions with
  | [] => mret []
  | reg :: rest =>
      values ← trace_values table norms reg;
      color ← (match colors !! idx with
               | Some c => Done c
               | None => Failed ListIndexError
               end);
      traces ← radar_traces table norms (S idx) rest;
      mret (mkTrace values categories reg color :: traces)
  end.

(** [region_metrics['on_time'] / region_metrics['orders'] * 100], as
    far as it can raise: the values are those of [on_time_pct]. *)
Definition on_time_pct_division `{PandasRelease}
    (table : list RegionMetrics) : chart_result unit :=
  match table with
  | [] => if empty_aggregate_keeps_str then Failed TypeError else Done tt
  | _ :: _ => Done tt
  end.

(** The traces of [create_regional_radar_chart]. *)
Definition regional_radar `{PandasRelease} (frame : DataFrame)
    : chart_result (list Trace) :=
  let table := region_metrics frame in
  _ ← on_time_pct_division table;
  radar_traces table (norm_columns table) 0 (region <$> table).

Definition create_regional_radar_chart `{PandasRelease} (self : Data)
    : chart_result (list Trace) :=
  regional_radar (filtered_df self).

(** The column that one turn of the normalisation loop adds, if it adds
    one. *)
Definition norm_column (table : list RegionMetrics)
    (col : string * (RegionMetrics → Qc)) : option (list Qc) :=
  match series_max (col.2 <$> table) with
  | Some max_val =>
      if bool_decide (0 < max_val)%Qc
      then Some ((λ m, col.2 m / max_val * Qc_of_Z 100)%Qc <$> table)
      else None
  | None => None
  end.

(** The first row of the table for a region. *)
Definition region_row (table : list RegionMetrics) (reg : string)
    : option RegionMetrics :=
  head (filter (λ m, region m = reg) table).

(** Some region has a positive sum of [value]. *)
Definition some_region_positive (value : Row → Qc) (frame : DataFrame)
    : Prop :=
  ∃ k, (0 < series_sum (value <$> group customer_region k frame))%Qc.

(** What the chart needs of the frame to find its five normalised
    columns: a region of positive sales, a region of positive profit
    and a delivery on time. *)
Definition radar_metrics_positive (frame : DataFrame) : Prop :=
  some_region_positive sales_per_order frame
  ∧ some_region_positive profit_per_order frame
  ∧ Exists (λ r, delivery_status r = "Shipping on time") frame.

(** The loop has added all five normalised columns. *)
Definition all_norms (table : list RegionMetrics) : Prop :=
  Forall (λ col, is_Some (norm_column table col)) metric_columns.

(** The row of [region_metrics] for the region [k]. *)
Definition metrics_of (frame : DataFrame) (k : string) : RegionMetrics :=
  let rows := group customer_region k frame in
  let revenue := series_sum (sales_per_order <$> rows) in
  let orders := length rows in
  let on_time := mask_sum (status_mask "Shipping on time" rows) in
  {| region := k;
     revenue := revenue;
     profit := series_sum (profit_per_order <$> rows);
     orders := orders;
     on_time := on_time;
     aov := (revenue / Qc_of_nat orders)%Qc;
     on_time_pct := (Qc_of_nat on_time / Qc_of_nat orders * Qc_of_Z 100)%Qc |}.

(** The entry of a normalised column for the row [m]. *)
Definition norm_value (table : list RegionMetrics)
    (col : string * (RegionMetrics → Qc)) (m : RegionMetrics) : Qc :=
  match series_max (col.2 <$> table) with
  | Some max_val => (col.2 m / max_val * Qc_of_Z 100)%Qc
  | None => 0%Qc
  end.

(** ** The page script *)

(** What a multiselect of [main.py] hands over while every option is
    selected: [default=c.unique_values(column)]. *)
Definition select_all (col : string * (Row → string)) (frame : DataFrame)
    : pyval :=
  PySeq (AStr <$> sorted (unique (col.2 <$> frame))).

(** The keyword arguments of the call [c.set_filters(...)] of the page,
    from the values of the six widgets. *)
Definition page_kwargs (date_range regions categories segments
    statuses shipping_types : pyval) : gmap string pyval :=
  {[ "date_range" := date_range;
     "customer_region" := regions;
     "category_name" := categories;
     "customer_segment" := segments;
     "delivery_status" := statuses;
     "shipping_type" := shipping_types ]}.

(** The call of the page while every option of the five multiselects is
    selected, as on the first run. *)
Definition page_defaults (date_range : pyval) (frame : DataFrame)
    : gmap string pyval :=
  page_kwargs date_range
    (select_all ("customer_region", customer_region) frame)
    (select_all ("category_name", category_name) frame)
    (select_all ("customer_segment", customer_segment) frame)
    (select_all ("delivery_status", delivery_status) frame)
    (select_all ("shipping_type", shipping_type) frame).

(** * Properties *)

(** ** Cells and Python values *)

Lemma ts_le_spec a b : ts_le a b = true ↔ ts_leq a b.
Proof.
  destruct a as [x|], b as [y|]; simpl; try (split; [discriminate|tauto]).
  apply bool_decide_eq_true.
Qed.

Lemma active_spec values :
  active values = true ↔ ∃ a items, values = PySeq (a :: items).
Proof.
  destruct values as [|[|a items]]; simpl.
  - split; [discriminate | intros (? & ? & ?); discriminate].
  - split; [discriminate | intros (? & ? & ?); discriminate].
  - split; [eauto | done].
Qed.

Lemma dict_get_insert fs key key' v :
  dict_get (<[key := v]> fs) key' =
  if decide (key = key') then v else dict_get fs key'.
Proof.
  unfold dict_get. rewrite lookup_insert. by destruct (decide (key = key')).
Qed.

Lemma dict_get_no_filters key : dict_get no_filters key = PyNone.
Proof.
  unfold dict_get, no_filters.
  repeat (rewrite lookup_insert; case_decide; [done|]).
  rewrite lookup_singleton. by case_decide.
Qed.

Lemma filter_all {A} (P : A → Prop) `{!∀ x, Decision (P x)} (l : list A) :
  (∀ x, P x) → filter P l = l.
Proof.
  intros HP. induction l as [|x l IH]; [done|].
  by rewrite filter_cons_True, IH.
Qed.

(** ** The filter engine *)

Section FilterTheory.

Context `{ToDatetime}.


(** [apply_filters] stores the derived view, or raises and leaves
    [self] as it was. *)
Lemma apply_filters_view self :
  apply_filters self =
  match view (filters self) (df self) with
  | Return v =>
      (Return tt, {| df := df self; filtered_df := v; filters := filters self |})
  | Raise e => (Raise e, self)
  end.
Proof.
  unfold apply_filters, view, date_stage.
  unfold mbind, M_bind, gets, lift, set_filtered_df; simpl.
  destruct (truthy _); simpl; [|done].
  destruct (getitem _ 0) as [a0|]; simpl; [|done].
  destruct (to_datetime a0) as [start_date|]; simpl; [|done].
  destruct (getitem _ 1) as [a1|]; simpl; [|done].
  by destruct (to_datetime a1) as [end_date|].
Qed.

(** One turn of the loop keeps the records that its column allows. *)
Lemma filter_column_allowed fs frame col :
  filter_column fs frame col = filter (allowed fs col) frame.
Proof.
  unfold filter_column; simpl.
  destruct (active (dict_get fs col.1)) eqn:Hact.
  - apply list_filter_iff. intros r. unfold allowed.
    apply active_spec in Hact as (a & items & ->). apply bool_decide_eq_true.
  - symmetry. apply filter_all. intros r. unfold allowed.
    by destruct (dict_get fs col.1) as [|[|a items]].
Qed.

(** The whole loop keeps the records that every column allows. *)
Lemma foldl_filter_column fs cols frame :
  foldl (filter_column fs) frame cols =
  filter (λ r, Forall (λ col, allowed fs col r) cols) frame.
Proof.
  revert frame. induction cols as [|col cols IH]; intros frame; cbn [foldl].
  - symmetry. apply filter_all. intros r. constructor.
  - rewrite IH, filter_column_allowed. rewrite list_filter_filter.
    apply list_filter_iff. intros r. rewrite Forall_cons. tauto.
Qed.

Lemma foldl_filter_column_sublist fs cols frame :
  foldl (filter_column fs) frame cols `sublist_of` frame.
Proof. rewrite foldl_filter_column. apply sublist_filter. Qed.

Lemma date_stage_sublist date_range frame v :
  date_stage date_range frame = Return v → v `sublist_of` frame.
Proof.
  unfold date_stage, mbind, result_bind.
  destruct (truthy date_range); simpl.
  - destruct (getitem _ 0) as [a0|]; [|done].
    destruct (to_datetime a0) as [start_date|]; [|done].
    destruct (getitem _ 1) as [a1|]; [|done].
    destruct (to_datetime a1) as [end_date|]; [|done].
    intros [= <-]. apply sublist_filter.
  - by intros [= <-].
Qed.

Lemma view_sublist fs frame v :
  view fs frame = Return v → v `sublist_of` frame.
Proof.
  unfold view, mbind, result_bind.
  destruct (date_stage _ frame) as [frame1|] eqn:Hdate; [|done].
  unfold mret, result_ret. intros Hv.
  transitivity frame1; [|by eapply date_stage_sublist].
  replace v with (foldl (filter_column fs) frame1 categorical_columns)
    by congruence.
  apply foldl_filter_column_sublist.
Qed.

(** On a Filter Set the date step returns, with the records that lie
    in the date range. *)
Lemma date_stage_in_date_range fs frame :
  well_formed fs →
  date_stage (dict_get fs "date_range") frame =
  Return (filter (in_date_range fs) frame).
Proof.
  unfold well_formed, date_stage, mbind, result_bind. intros Hwf.
  assert (Hin : ∀ r, in_date_range fs r =
                     match date_interval fs with
                     | Some (s, e) => ts_leq s (order_date r) ∧ ts_leq (order_date r) e
                     | None => True
                     end) by done.
  unfold date_interval in Hwf, Hin.
  destruct (dict_get fs "date_range") as [|[|a0 [|a1 rest]]]; simpl in *.
  - rewrite filter_all; [done|]. intros r. by rewrite Hin.
  - rewrite filter_all; [done|]. intros r. by rewrite Hin.
  - by destruct (Hwf eq_refl) as [? [=]].
  - destruct (to_datetime a0) as [start_date|]; simpl;
      [|by destruct (Hwf eq_refl) as [? [=]]].
    destruct (to_datetime a1) as [end_date|]; simpl;
      [|by destruct (Hwf eq_refl) as [? [=]]].
    unfold mret, result_ret. f_equal. apply list_filter_iff. intros r.
    by rewrite Hin, andb_true_iff, !ts_le_spec.
Qed.

Lemma view_satisfies fs frame :
  well_formed fs → view fs frame = Return (filter (satisfies fs) frame).
Proof.
  intros Hwf. unfold view.
  rewrite (date_stage_in_date_range _ _ Hwf).
  unfold mbind, result_bind, mret, result_ret. f_equal.
  rewrite foldl_filter_column, list_filter_filter.
  apply list_filter_iff. intros r. unfold satisfies. tauto.
Qed.

(** C1. On every Filter Set (the date-range entry unset, or denoting an
    interval [(start, end)]), [apply_filters] returns and stores as
    Filtered View exactly the records of the full record set, in their
    order, that satisfy the conjunction of the active filters: the
    order date lies between [start] and [end], both included, when
    the date range is set, and for each of the five categorical
    columns with a non-empty filter the record's value is a member of
    it; an unset or empty filter restricts nothing. The full record
    set and the filters are left as they were. *)
Theorem apply_filters_keeps_exactly self :
  well_formed (filters self) →
  apply_filters self =
  (Return tt,
   {| df := df self;
      filtered_df := filter (satisfies (filters self)) (df self);
      filters := filters self |}).
Proof.
  intros Hwf. by rewrite apply_filters_view, (view_satisfies _ _ Hwf).
Qed.

Lemma apply_filters_df self : df (apply_filters self).2 = df self.
Proof. rewrite apply_filters_view. by destruct (view _ _). Qed.

Lemma apply_filters_filters self :
  filters (apply_filters self).2 = filters self.
Proof. rewrite apply_filters_view. by destruct (view _ _). Qed.

(** [set_filters] is [apply_filters] on the object with the merged
    dictionary. *)
Lemma set_filters_unfold kwargs self :
  set_filters kwargs self =
  apply_filters {| df := df self; filtered_df := filtered_df self;
                   filters := kwargs ∪ filters self |}.
Proof. done. Qed.

(** The stored view is a part of the full record set in every state of
    the object, also after a call that raised. *)
Lemma reachable_view_sublist self :
  reachable self → filtered_df self `sublist_of` df self.
Proof.
  induction 1 as [loaded|kwargs self _ IH|self _ IH].
  - done.
  - rewrite set_filters_unfold, apply_filters_view; simpl.
    destruct (view _ _) as [v|] eqn:Hview; simpl; [|done].
    by eapply view_sublist.
  - rewrite apply_filters_view.
    destruct (view _ _) as [v|] eqn:Hview; simpl; [|done].
    by eapply view_sublist.
Qed.

(** C3. The Filtered View that [apply_filters] produces holds only
    records of the full record set: it is a sublist of it (no new row,
    no row twice, the order kept), and the full record set is the one
    of before the call. *)
Theorem filtered_view_subset self self' :
  apply_filters self = (Return tt, self') →
  filtered_df self' `sublist_of` df self
  ∧ (∀ r, r ∈ filtered_df self' → r ∈ df self)
  ∧ df self' = df self.
Proof.
  rewrite apply_filters_view.
  destruct (view _ _) as [v|] eqn:Hview; [|done].
  intros [= <-]; simpl.
  pose proof (view_sublist _ _ _ Hview) as Hsub.
  split_and!; [done| |done].
  intros r. by apply sublist_subseteq.
Qed.

(** C4. A second [apply_filters] with the stored filters unchanged ends
    as the first did, in the same state: the same Filtered View, or
    the same exception. *)
Theorem apply_filters_idempotent self :
  apply_filters (apply_filters self).2 = apply_filters self.
Proof.
  rewrite (apply_filters_view self).
  destruct (view (filters self) (df self)) as [v|] eqn:Hview; simpl.
  - rewrite apply_filters_view; simpl. by rewrite Hview.
  - rewrite apply_filters_view. by rewrite Hview.
Qed.

Lemma foldl_ext_all {A B} (f g : A → B → A) (l : list B) (a : A) :
  (∀ x y, f x y = g x y) → foldl f a l = foldl g a l.
Proof.
  intros Hfg. revert a. induction l as [|y l IH]; intros a; [done|].
  cbn [foldl]. by rewrite Hfg, IH.
Qed.

(** An empty sequence and [None] under a key derive the same view,
    whatever the key. *)
Lemma view_empty_None key fs frame :
  view (<[key := PySeq []]> fs) frame = view (<[key := PyNone]> fs) frame.
Proof.
  unfold view.
  assert (Hdate : date_stage (dict_get (<[key := PySeq []]> fs) "date_range") frame
                  = date_stage (dict_get (<[key := PyNone]> fs) "date_range") frame).
  { rewrite !dict_get_insert. by case_decide. }
  rewrite Hdate; clear Hdate.
  destruct (date_stage _ frame) as [frame1|]; [|done].
  unfold mbind, result_bind, mret, result_ret. f_equal.
  apply foldl_ext_all. intros frame2 col. unfold filter_column.
  rewrite !dict_get_insert. by case_decide.
Qed.

(** A key other than ["date_range"] leaves the interval alone. *)
Lemma date_interval_insert key v fs :
  key ≠ "date_range" → date_interval (<[key := v]> fs) = date_interval fs.
Proof.
  intros Hkey. unfold date_interval.
  by rewrite dict_get_insert, decide_False.
Qed.

(** An entry that is [None] or the empty sequence under [key] lets
    every record through on that column; the other columns read their
    own entries. *)
Lemma allowed_insert_unset key v fs r (cols : list (string * (Row → string))) :
  v = PyNone ∨ v = PySeq [] →
  Forall (λ col, allowed (<[key := v]> fs) col r) cols
  ↔ Forall (λ col, allowed fs col r) (filter (λ col, col.1 ≠ key) cols).
Proof.
  intros Hv. induction cols as [|col cols IH]; [done|].
  rewrite Forall_cons, IH. clear IH.
  destruct (decide (col.1 = key)) as [Heq|Hne].
  - rewrite filter_cons_False by (intros Hc; by apply Hc).
    unfold allowed at 1. rewrite dict_get_insert, decide_True by done.
    destruct Hv as [-> | ->]; tauto.
  - rewrite filter_cons_True, Forall_cons by done.
    unfold allowed at 1 3. rewrite dict_get_insert, decide_False by done.
    tauto.
Qed.

Lemma satisfies_insert_unset key v fs r :
  key ∈ categorical_columns.*1 → v = PyNone ∨ v = PySeq [] →
  satisfies (<[key := v]> fs) r ↔ satisfies_without key fs r.
Proof.
  intros Hkey Hv. unfold satisfies, satisfies_without, in_date_range.
  rewrite date_interval_insert, (allowed_insert_unset key v fs r _ Hv); [done|].
  intros ->. revert Hkey. unfold categorical_columns; simpl. set_solver.
Qed.

Lemma well_formed_insert key v fs :
  key ∈ categorical_columns.*1 → well_formed fs → well_formed (<[key := v]> fs).
Proof.
  intros Hkey Hwf.
  assert (Hne : key ≠ "date_range").
  { intros ->. revert Hkey. unfold categorical_columns; simpl. set_solver. }
  unfold well_formed. rewrite date_interval_insert by done.
  by rewrite dict_get_insert, decide_False.
Qed.

(** C5. For each of the five categorical keys, on every dataset and for
    every setting of the other entries of the Filter Set: with the
    empty set under the key and with [None] under the key
    [apply_filters] returns and stores one and the same Filtered View,
    and that view restricts nothing on the key's column, for it holds
    exactly the records of the dataset that the date range and the four
    other categorical filters let through, whatever value they carry on
    that column. *)
Theorem empty_set_same_as_None key frame stored fs :
  key ∈ categorical_columns.*1 →
  well_formed fs →
  let with_entry v :=
    {| df := frame; filtered_df := stored; filters := <[key := v]> fs |} in
  let unrestricted := filter (satisfies_without key fs) frame in
  apply_filters (with_entry (PySeq []))
  = (Return tt, {| df := frame; filtered_df := unrestricted;
                   filters := <[key := PySeq []]> fs |})
  ∧ apply_filters (with_entry PyNone)
    = (Return tt, {| df := frame; filtered_df := unrestricted;
                     filters := <[key := PyNone]> fs |}).
Proof.
  intros Hkey Hwf with_entry unrestricted. unfold with_entry, unrestricted.
  rewrite !apply_filters_view; simpl.
  rewrite !view_satisfies by by apply well_formed_insert.
  split; do 2 f_equal; apply list_filter_iff; intros r;
    apply satisfies_insert_unset; auto.
Qed.

(** C7. [set_filters] merges exactly the given keys into the stored
    filters (a key of the call takes the value of the call, every
    other entry keeps its value) and then recomputes the Filtered View
    under the merged filters; it leaves the full record set as it was.
    [apply_filters] leaves both the full record set and the filters as
    they were: all it replaces is the stored Filtered View. *)
Theorem set_filters_merges_and_frames kwargs self :
  (∀ key, filters (set_filters kwargs self).2 !! key =
          match kwargs !! key with
          | Some v => Some v
          | None => filters self !! key
          end)
  ∧ df (set_filters kwargs self).2 = df self
  ∧ match view (filters (set_filters kwargs self).2) (df self) with
    | Return v =>
        (set_filters kwargs self).1 = Return tt
        ∧ filtered_df (set_filters kwargs self).2 = v
    | Raise e =>
        (set_filters kwargs self).1 = Raise e
        ∧ filtered_df (set_filters kwargs self).2 = filtered_df self
    end
  ∧ df (apply_filters self).2 = df self
  ∧ filters (apply_filters self).2 = filters self.
Proof.
  rewrite set_filters_unfold, apply_filters_df, apply_filters_filters.
  split_and!; try done.
  - intros key; simpl. rewrite lookup_union.
    by destruct (kwargs !! key), (filters self !! key).
  - rewrite apply_filters_view; simpl. by destruct (view _ _).
  - apply apply_filters_df.
  - apply apply_filters_filters.
Qed.

End FilterTheory.

(** ** The KPI aggregator *)

Lemma Qc_of_Z_eq_0 z : Qc_of_Z z = 0%Qc → z = 0.
Proof.
  unfold Qc_of_Z. intros Heq. apply Q2Qc_eq_iff in Heq.
  unfold Qeq in Heq; simpl in Heq. lia.
Qed.

Lemma Qc_of_nat_neq_0 n : (0 < n)%nat → Qc_of_nat n ≠ 0%Qc.
Proof. intros Hn Heq. apply Qc_of_Z_eq_0 in Heq. lia. Qed.

Lemma bool_decide_pos (n : nat) :
  bool_decide (0 < n)%nat = negb (bool_decide (n = 0%nat)).
Proof. destruct n; [done|]. by rewrite bool_decide_eq_true_2 by lia. Qed.

Lemma truediv_neq_0 a b : b ≠ 0%Qc → truediv a b = Return (a / b)%Qc.
Proof. intros Hb. unfold truediv. by rewrite decide_False. Qed.

Lemma mask_sum_status status frame :
  mask_sum (status_mask status frame) = count_status status frame.
Proof.
  unfold count_status, status_mask.
  induction frame as [|r frame IH]; [done|].
  rewrite filter_cons; cbn [fmap list_fmap mask_sum foldr].
  fold (mask_sum ((λ r, bool_decide (delivery_status r = status)) <$> frame)).
  rewrite IH. case_bool_decide as Hs.
  - by rewrite decide_True.
  - by rewrite decide_False.
Qed.

(** The guards keep every division away from a zero divisor: the body
    of [compute_kpis] returns on every frame, with these values. *)
Lemma kpis_returns frame :
  kpis frame =
  Return {|
    total_revenue := revenue_of frame;
    total_profit := profit_of frame;
    total_orders := length frame;
    profit_margin :=
      if bool_decide (0 < revenue_of frame)%Qc
      then (profit_of frame / revenue_of frame * Qc_of_Z 100)%Qc else 0%Qc;
    avg_order_value :=
      if bool_decide (0 < length frame)%nat
      then (revenue_of frame / Qc_of_nat (length frame))%Qc else 0%Qc;
    on_time_rate :=
      if bool_decide (0 < length frame)%nat
      then (Qc_of_nat (count_status "Shipping on time" frame)
            / Qc_of_nat (length frame) * Qc_of_Z 100)%Qc
      else 0%Qc;
    late_deliveries := count_status "Late delivery" frame
  |}.
Proof.
  unfold kpis, revenue_of, profit_of. rewrite !mask_sum_status.
  set (revenue := series_sum (sales_per_order <$> frame)).
  set (profit := series_sum (profit_per_order <$> frame)).
  assert (Hmargin : (if bool_decide (0 < revenue)%Qc
                     then q ← truediv profit revenue; mret (q * Qc_of_Z 100)%Qc
                     else mret 0%Qc)
                    = Return (if bool_decide (0 < revenue)%Qc
                              then (profit / revenue * Qc_of_Z 100)%Qc else 0%Qc)).
  { case_bool_decide as Hpos; [|reflexivity].
    rewrite truediv_neq_0; [reflexivity|].
    intros Hz. rewrite Hz in Hpos. by apply Qclt_not_le in Hpos. }
  rewrite Hmargin; clear Hmargin. cbn [mbind result_bind].
  destruct (decide (0 < length frame)%nat) as [Hcount|Hcount].
  - rewrite !(bool_decide_eq_true_2 (0 < length frame)%nat) by done.
    by rewrite !truediv_neq_0 by by apply Qc_of_nat_neq_0.
  - by rewrite !(bool_decide_eq_false_2 (0 < length frame)%nat) by done.
Qed.

Lemma compute_kpis_kpis self :
  compute_kpis self = (kpis (filtered_df self), self).
Proof. done. Qed.

(** C2, as amended. On every Filtered View [compute_kpis] returns (no
    division raises) seven scalars: the sum of the sales, the sum of the
    profits, the number of records, the margin [100*profit/revenue]
    when the revenue is above 0 and 0 otherwise, the average order
    value [revenue/count], or 0 on no record, the on-time rate [100 *
    on-time count / count], or 0 on no record, and the count of late
    deliveries; on a view of 0 rows all seven are 0. *)
Theorem compute_kpis_formulas self :
  let frame := filtered_df self in
  ∃ k, compute_kpis self = (Return k, self)
    ∧ total_revenue k = revenue_of frame
    ∧ total_profit k = profit_of frame
    ∧ total_orders k = length frame
    ∧ profit_margin k =
        (if bool_decide (0 < revenue_of frame)%Qc
         then (Qc_of_Z 100 * profit_of frame / revenue_of frame)%Qc
         else 0%Qc)
    ∧ avg_order_value k =
        (if bool_decide (length frame = 0%nat) then 0%Qc
         else (revenue_of frame / Qc_of_nat (length frame))%Qc)
    ∧ on_time_rate k =
        (if bool_decide (length frame = 0%nat) then 0%Qc
         else (Qc_of_Z 100 * Qc_of_nat (count_status "Shipping on time" frame)
               / Qc_of_nat (length frame))%Qc)
    ∧ late_deliveries k = count_status "Late delivery" frame
    ∧ (compute_kpis {| df := df self; filtered_df := []; filters := filters self |}).1
      = Return (mkKPIs 0%Qc 0%Qc 0 0%Qc 0%Qc 0%Qc 0).
Proof.
  intros frame; subst frame. eexists. rewrite !compute_kpis_kpis, kpis_returns.
  split; [reflexivity|]. cbn [total_revenue total_profit total_orders
    profit_margin avg_order_value on_time_rate late_deliveries].
  split_and!; try reflexivity.
  - case_bool_decide; [|done]. unfold Qcdiv. ring.
  - rewrite bool_decide_pos. by case_bool_decide.
  - rewrite bool_decide_pos. case_bool_decide; [done|].
    simpl. unfold Qcdiv. ring.
Qed.

(** C2 as the specification words it fails on a view of negative
    revenue: the margin returned is 0, the revenue is not 0, and
    [100*profit/revenue] is not 0. *)
Lemma compute_kpis_margin_counterexample :
  ∃ k, compute_kpis (init [order_refund]) = (Return k, init [order_refund])
    ∧ total_revenue k ≠ 0%Qc
    ∧ profit_margin k ≠ (Qc_of_Z 100 * total_profit k / total_revenue k)%Qc.
Proof.
  eexists. rewrite compute_kpis_kpis, kpis_returns.
  split; [reflexivity|]. cbn [total_revenue total_profit profit_margin].
  split; intros Heq; apply (f_equal this) in Heq; vm_compute in Heq;
    discriminate.
Qed.

(** C8. On a Filtered View whose total revenue is below 0,
    [compute_kpis] returns the margin 0: the guard [total_revenue > 0]
    keeps the margin formula for a revenue above 0. *)
Theorem negative_revenue_margin_zero self :
  (revenue_of (filtered_df self) < 0)%Qc →
  ∃ k, compute_kpis self = (Return k, self)
    ∧ total_revenue k = revenue_of (filtered_df self)
    ∧ profit_margin k = 0%Qc.
Proof.
  intros Hneg. eexists. rewrite compute_kpis_kpis, kpis_returns.
  split; [reflexivity|]. split; [reflexivity|].
  cbn [profit_margin]. rewrite bool_decide_eq_false_2; [done|].
  intros Hpos. apply (Qclt_not_le _ _ Hpos). by apply Qclt_le_weak.
Qed.

(** ** No filter set *)

Section Unfiltered.

Context `{ToDatetime}.

Lemma all_unset_get fs key :
  all_unset fs → key ∈ filter_keys → dict_get fs key = PyNone.
Proof. unfold all_unset. rewrite Forall_forall. auto. Qed.

Lemma init_all_unset loaded : all_unset (filters (init loaded)).
Proof. apply Forall_forall. intros key _. apply dict_get_no_filters. Qed.

(** With no entry set the derived view is the whole frame. *)
Lemma view_all_unset fs frame : all_unset fs → view fs frame = Return frame.
Proof.
  intros Hfs. unfold view.
  rewrite (all_unset_get fs "date_range" Hfs)
    by (unfold filter_keys; set_solver).
  unfold date_stage, truthy, mbind, result_bind, mret, result_ret. f_equal.
  rewrite foldl_filter_column. apply filter_all. intros r.
  apply Forall_forall. intros col Hcol. unfold allowed.
  rewrite (all_unset_get fs col.1 Hfs); [done|].
  unfold filter_keys. apply elem_of_app. left.
  by apply list_elem_of_fmap_2.
Qed.

(** The body of [compute_kpis] computes the guarded formulas. *)
Lemma kpis_guarded frame : kpis frame = Return (kpi_formulas_guarded frame).
Proof.
  rewrite kpis_returns. unfold kpi_formulas_guarded. do 2 f_equal.
  - case_bool_decide; [|done]. unfold Qcdiv. ring.
  - rewrite bool_decide_pos. by case_bool_decide.
  - rewrite bool_decide_pos. case_bool_decide; [done|].
    simpl. unfold Qcdiv. ring.
Qed.

(** C6, as amended. With all six filters unset, [apply_filters] returns
    and stores the full record set as Filtered View, and [compute_kpis]
    returns the seven scalars that the formulas give on the full record
    set: the sum of the sales, the sum of the profits, the number of
    records, the margin [100*profit/revenue] when the revenue is above
    0 and 0 otherwise, the average order value [revenue/count], or 0 on
    no record, the on-time rate [100 * on-time count / count], or 0 on
    no record, and the count of late deliveries. So it does on the
    object as constructed, whose six filters are [None]. *)
Theorem compute_kpis_unfiltered self :
  all_unset (filters self) →
  let frame := df self in
  (apply_filters self).1 = Return tt
  ∧ filtered_df (apply_filters self).2 = frame
  ∧ compute_kpis (apply_filters self).2
    = (Return {|
         total_revenue := revenue_of frame;
         total_profit := profit_of frame;
         total_orders := length frame;
         profit_margin :=
           if bool_decide (0 < revenue_of frame)%Qc
           then (Qc_of_Z 100 * profit_of frame / revenue_of frame)%Qc
           else 0%Qc;
         avg_order_value :=
           if bool_decide (length frame = 0%nat) then 0%Qc
           else (revenue_of frame / Qc_of_nat (length frame))%Qc;
         on_time_rate :=
           if bool_decide (length frame = 0%nat) then 0%Qc
           else (Qc_of_Z 100 * Qc_of_nat (count_status "Shipping on time" frame)
                 / Qc_of_nat (length frame))%Qc;
         late_deliveries := count_status "Late delivery" frame |},
       (apply_filters self).2)
  ∧ all_unset (filters (init frame))
  ∧ compute_kpis (init frame) = (Return (kpi_formulas_guarded frame), init frame).
Proof.
  intros Hfs frame. subst frame.
  rewrite apply_filters_view, (view_all_unset _ _ Hfs).
  split_and!; try done.
  - rewrite compute_kpis_kpis, kpis_guarded. done.
  - apply init_all_unset.
  - rewrite compute_kpis_kpis. simpl. by rewrite kpis_guarded.
Qed.

End Unfiltered.

(** ** The cached loader *)

Section LoaderTheory.

Context `{Pandas}.

(** A stored frame stays stored, whatever is loaded next. *)
Lemma load_data_keeps_cache csv_file w path frame :
  cache w !! path = Some frame →
  cache (load_data csv_file w).2 !! path = Some frame.
Proof.
  intros Hpath. unfold load_data.
  destruct (cache w !! csv_file) as [stored|] eqn:Hhit; [done|].
  destruct (load_data_body _ _); [|done]. simpl.
  rewrite lookup_insert_ne; [done|]. congruence.
Qed.

(** A load that returns leaves its frame in the cache. *)
Lemma load_data_stores csv_file w frame w1 :
  load_data csv_file w = (Return frame, w1) →
  cache w1 !! csv_file = Some frame.
Proof.
  unfold load_data.
  destruct (cache w !! csv_file) as [stored|] eqn:Hhit.
  - by intros [= <- <-].
  - destruct (load_data_body _ _); intros [= <- <-]; simpl.
    by rewrite lookup_insert_eq.
Qed.

(** C10. Once a load of a path has returned a record set, a second
    load of the same path is a cache hit that returns the identical
    record set and changes nothing, also when the file has changed in
    between: the result is a function of the path. *)
Theorem load_data_cache_hit csv_file w frame w1 fs :
  load_data csv_file w = (Return frame, w1) →
  load_data csv_file w1 = (Return frame, w1)
  ∧ load_data csv_file (rewrite_files fs w1) = (Return frame, rewrite_files fs w1).
Proof.
  intros Hload. apply load_data_stores in Hload.
  unfold load_data, rewrite_files; simpl. by rewrite Hload.
Qed.

End LoaderTheory.

(** ** The loader on files of text *)

Global Instance no_date_dec cell : Decision (no_date cell).
Proof. destruct cell; simpl; apply _. Defined.

Lemma strptime_no_date val : no_date (Some val) → strptime val = Return None.
Proof. intros Hno. unfold strptime. by rewrite decide_True. Qed.

(** A text that is no NaT string converts exactly when it matches the
    format, and to the day that its three fields name. *)
Lemma strptime_Return val t :
  ¬ no_date (Some val) →
  strptime val = Return t ↔
  ∃ d m y day month year,
    split_dash val = [d; m; y]
    ∧ day_directive d = Some day
    ∧ month_directive m = Some month
    ∧ year_directive y = Some year
    ∧ valid_date year month day = true
    ∧ t = Some (days_from_civil year month day).
Proof.
  intros Hno. unfold strptime. rewrite decide_False by done. split.
  - destruct (split_dash val) as [|d [|m [|y [|]]]]; try done.
    destruct (day_directive d) as [day|] eqn:Hd; [|done].
    destruct (month_directive m) as [month|] eqn:Hm; [|done].
    destruct (year_directive y) as [year|] eqn:Hy; [|done].
    destruct (valid_date year month day) eqn:Hvalid; [|done].
    intros [= <-]. by exists d, m, y, day, month, year.
  - intros (d & m & y & day & month & year & -> & -> & -> & -> & -> & ->).
    done.
Qed.

Lemma strptime_matches val :
  ¬ no_date (Some val) →
  matches_format val ↔ ∃ t, strptime val = Return (Some t).
Proof.
  intros Hno. unfold matches_format. split.
  - intros (d & m & y & day & month & year & ? & ? & ? & ? & ?).
    eexists. apply strptime_Return; [done|].
    by exists d, m, y, day, month, year.
  - intros (t & (d & m & y & day & month & year & ? & ? & ? & ? & ? & _)
                  %strptime_Return); [|done].
    by exists d, m, y, day, month, year.
Qed.

Lemma strptime_Raise val :
  (∃ e, strptime val = Raise e) ↔
  ¬ no_date (Some val) ∧ ¬ matches_format val.
Proof.
  split.
  - intros [e Hraise].
    destruct (decide (no_date (Some val))) as [Hno|Hno].
    { by rewrite strptime_no_date in Hraise. }
    split; [done|]. rewrite strptime_matches by done.
    intros [t Hret]. congruence.
  - intros [Hno Hmis]. destruct (strptime val) as [t|e] eqn:Hrun; [|by eexists].
    exfalso. apply Hmis. apply strptime_matches; [done|].
    pose proof Hrun as Hday. apply strptime_Return in Hday; [|done].
    destruct Hday as (? & ? & ? & ? & ? & ? & _ & _ & _ & _ & _ & ->).
    by eexists.
Qed.

(** The column converts unless one of its cells does not. *)
Lemma convert_order_dates_Return rows frame :
  convert_order_dates rows = Return frame → Forall2 parsed rows frame.
Proof.
  revert frame. induction rows as [|row rows IH]; intros frame; simpl.
  { intros [= <-]. constructor. }
  unfold mbind, result_bind, mret, result_ret.
  destruct (convert_cell (raw_order_date row)) as [value|] eqn:Hcell; [|done].
  destruct (convert_order_dates rows) as [rest|]; [|done].
  intros [= <-]. constructor; [|by apply IH]. by split.
Qed.

Lemma convert_order_dates_Raise rows :
  (∃ e, convert_order_dates rows = Raise e) ↔
  ∃ row val, row ∈ rows ∧ raw_order_date row = Some val
             ∧ ¬ no_date (Some val) ∧ ¬ matches_format val.
Proof.
  induction rows as [|row rows IH]; simpl.
  { split; [by intros [? ?]|]. intros (? & ? & []%elem_of_nil & _). }
  unfold mbind, result_bind, mret, result_ret.
  destruct (convert_cell (raw_order_date row)) as [value|e] eqn:Hcell.
  - assert (Hrow : ¬ ∃ val, raw_order_date row = Some val
                            ∧ ¬ no_date (Some val) ∧ ¬ matches_format val).
    { intros (val & Hval & Hbad). rewrite Hval in Hcell. simpl in Hcell.
      apply strptime_Raise in Hbad as [e He]. congruence. }
    destruct (convert_order_dates rows) as [rest|e].
    + split; [by intros [? ?]|].
      intros (row' & val & [->|Hin]%elem_of_cons & Hval & Hbad).
      * exfalso. apply Hrow. eauto.
      * assert (Hraise : ∃ e, Return rest = Raise e) by (apply IH; eauto 6).
        by destruct Hraise.
    + split; [|by eexists]. intros _.
      destruct (proj1 IH) as (row' & val & Hin & Hval & Hbad); [by eexists|].
      exists row', val. split; [by right|done].
  - split; [|by eexists]. intros _.
    destruct (raw_order_date row) as [val|] eqn:Hval; [|done].
    exists row, val. split; [left|]. split; [done|].
    apply strptime_Raise. by eexists.
Qed.

Lemma strptime_ValueError val e : strptime val = Raise e → e = ValueError.
Proof.
  unfold strptime. repeat case_match; congruence.
Qed.

Lemma convert_order_dates_ValueError rows e :
  convert_order_dates rows = Raise e → e = ValueError.
Proof.
  induction rows as [|row rows IH]; simpl; [done|].
  unfold mbind, result_bind, mret, result_ret.
  destruct (convert_cell (raw_order_date row)) as [value|e'] eqn:Hcell.
  - destruct (convert_order_dates rows); [done|]. intros [= <-]. by apply IH.
  - intros [= <-]. destruct (raw_order_date row); [|done].
    by eapply strptime_ValueError.
Qed.

(** The digits of a number below ten and the characters that they are
    not. *)
Lemma digit_char_spec n :
  0 ≤ n ≤ 9 →
  digit_of (digit_char n) = Some n
  ∧ digit_char n ≠ "-"%char
  ∧ digit_char n ≠ "N"%char
  ∧ digit_char n ≠ "n"%char.
Proof.
  intros Hn.
  assert (Hcases : n = 0 ∨ n = 1 ∨ n = 2 ∨ n = 3 ∨ n = 4 ∨ n = 5 ∨ n = 6
                   ∨ n = 7 ∨ n = 8 ∨ n = 9) by lia.
  destruct Hcases as [->|[->|[->|[->|[->|[->|[->|[->|[->| ->]]]]]]]]];
    by vm_compute.
Qed.

Lemma split_dash_field c (val : string) :
  c ≠ "-"%char →
  split_dash (String c val)
  = match split_dash val with
    | field :: fields => String c field :: fields
    | [] => [String c EmptyString]
    end.
Proof. intros Hc. simpl. by rewrite decide_False. Qed.

Lemma split_dash_dash (val : string) :
  split_dash (String "-" val) = EmptyString :: split_dash val.
Proof. done. Qed.

(** The text [DD-MM-YYYY] of a day of the calendar converts to the
    instant of that day. *)
Lemma strptime_dd_mm_yyyy year month day :
  valid_date year month day = true →
  strptime (dd_mm_yyyy year month day)
  = Return (Some (days_from_civil year month day)).
Proof.
  intros Hvalid. pose proof Hvalid as Hrange.
  unfold valid_date in Hrange.
  apply andb_prop in Hrange as [[Hy Hm]%andb_prop Hd].
  apply bool_decide_eq_true in Hy, Hm, Hd.
  assert (Hdim : days_in_month year month ≤ 31).
  { unfold days_in_month. repeat case_bool_decide; destruct (is_leap year); lia. }
  assert (Hd1 : 0 ≤ day / 10 ≤ 9) by (Z.to_euclidean_division_equations; lia).
  assert (Hd2 : 0 ≤ day mod 10 ≤ 9) by (Z.to_euclidean_division_equations; lia).
  assert (Hm1 : 0 ≤ month / 10 ≤ 9) by (Z.to_euclidean_division_equations; lia).
  assert (Hm2 : 0 ≤ month mod 10 ≤ 9)
    by (Z.to_euclidean_division_equations; lia).
  assert (Hy1 : 0 ≤ year / 1000 ≤ 9) by (Z.to_euclidean_division_equations; lia).
  assert (Hy2 : 0 ≤ year / 100 mod 10 ≤ 9)
    by (Z.to_euclidean_division_equations; lia).
  assert (Hy3 : 0 ≤ year / 10 mod 10 ≤ 9)
    by (Z.to_euclidean_division_equations; lia).
  assert (Hy4 : 0 ≤ year mod 10 ≤ 9) by (Z.to_euclidean_division_equations; lia).
  destruct (digit_char_spec _ Hd1) as (Ed1 & Dd1 & Nd1 & nd1).
  destruct (digit_char_spec _ Hd2) as (Ed2 & Dd2 & _ & _).
  destruct (digit_char_spec _ Hm1) as (Em1 & Dm1 & _ & _).
  destruct (digit_char_spec _ Hm2) as (Em2 & Dm2 & _ & _).
  destruct (digit_char_spec _ Hy1) as (Ey1 & Dy1 & _ & _).
  destruct (digit_char_spec _ Hy2) as (Ey2 & Dy2 & _ & _).
  destruct (digit_char_spec _ Hy3) as (Ey3 & Dy3 & _ & _).
  destruct (digit_char_spec _ Hy4) as (Ey4 & Dy4 & _ & _).
  apply strptime_Return.
  { unfold dd_mm_yyyy, two_digits, nat_strings. cbv [String.append no_date].
    intros [Hempty|Hnat]; [discriminate|].
    repeat (apply elem_of_cons in Hnat as [Hnat|Hnat];
            [injection Hnat as Hc _; congruence|]).
    by apply elem_of_nil in Hnat. }
  exists (two_digits day), (two_digits month), (four_digits year),
    day, month, year.
  split_and!; [| | | |done|done].
  - unfold dd_mm_yyyy, two_digits, four_digits. cbv [String.append].
    rewrite !split_dash_field by done. rewrite split_dash_dash.
    rewrite !split_dash_field by done. rewrite split_dash_dash.
    by rewrite !split_dash_field by done.
  - unfold day_directive, two_digits. rewrite Ed1, Ed2.
    rewrite bool_decide_eq_true_2; [f_equal|];
      Z.to_euclidean_division_equations; lia.
  - unfold month_directive, two_digits. rewrite Em1, Em2.
    rewrite bool_decide_eq_true_2; [f_equal|];
      Z.to_euclidean_division_equations; lia.
  - unfold year_directive, four_digits. rewrite Ey1, Ey2, Ey3, Ey4. f_equal.
    Z.to_euclidean_division_equations. lia.
Qed.



(** * The properties on the sample data *)

(** The scenario of the specification: three records, the date range
    leaves the record without revenue out. *)
Example sample_view :
  filtered_df (@apply_filters no_strings sample_data).2
  = [order_late; order_on_time].
Proof. vm_compute. reflexivity. Qed.

Example sample_kpis :
  (compute_kpis (@apply_filters no_strings sample_data).2).1
  = Return (mkKPIs (Qc_of_Z 300) (Qc_of_Z 5) 2 (Q2Qc (5 # 3))
                   (Qc_of_Z 150) (Qc_of_Z 50) 1).
Proof. vm_compute. do 2 f_equal; apply Qc_is_canon; reflexivity. Qed.

(** A date range of one date, as the date picker hands it over while
    the second date is not chosen yet: the subscript raises, the merged
    filters stay, the stored view is the one of before. *)
Example one_date_raises :
  let self' := (@set_filters no_strings
                  {[ "date_range" := PySeq [ADate 5] ]} sample_data) in
  self'.1 = Raise IndexError
  ∧ filtered_df self'.2 = sample_frame
  ∧ dict_get (filters self'.2) "date_range" = PySeq [ADate 5].
Proof. vm_compute. done. Qed.

Lemma apply_filters_keeps_exactly_witness :
  @well_formed no_strings (filters sample_data)
  ∧ @apply_filters no_strings sample_data =
    (Return tt,
     {| df := sample_frame;
        filtered_df :=
          filter (@satisfies no_strings (filters sample_data)) sample_frame;
        filters := filters sample_data |}).
Proof.
  assert (Hwf : @well_formed no_strings (filters sample_data)).
  { intros _. vm_compute. eauto. }
  split; [exact Hwf|].
  exact (@apply_filters_keeps_exactly no_strings sample_data Hwf).
Defined.

Lemma filtered_view_subset_witness :
  let self' := (@apply_filters no_strings sample_data).2 in
  @apply_filters no_strings sample_data = (Return tt, self')
  ∧ filtered_df self' `sublist_of` sample_frame
  ∧ (∀ r, r ∈ filtered_df self' → r ∈ sample_frame)
  ∧ df self' = sample_frame.
Proof.
  intros self'.
  assert (Hrun : @apply_filters no_strings sample_data = (Return tt, self')).
  { vm_compute. reflexivity. }
  split; [exact Hrun|].
  exact (@filtered_view_subset no_strings sample_data self' Hrun).
Defined.

Lemma empty_set_same_as_None_witness :
  let fs := <["customer_segment" := PySeq [AStr "Consumer"]]> no_filters in
  let with_entry v :=
    {| df := sample_frame; filtered_df := [];
       filters := <["customer_region" := v]> fs |} in
  "customer_region" ∈ categorical_columns.*1
  ∧ @well_formed no_strings fs
  ∧ @apply_filters no_strings (with_entry (PySeq []))
    = (Return tt, {| df := sample_frame;
                     filtered_df := [order_late; order_free];
                     filters := <["customer_region" := PySeq []]> fs |})
  ∧ @apply_filters no_strings (with_entry PyNone)
    = (Return tt, {| df := sample_frame;
                     filtered_df := [order_late; order_free];
                     filters := <["customer_region" := PyNone]> fs |}).
Proof.
  intros fs with_entry.
  assert (Hkey : "customer_region" ∈ categorical_columns.*1).
  { simpl. left. }
  assert (Hwf : @well_formed no_strings fs).
  { intros Hset. vm_compute in Hset. discriminate Hset. }
  split; [exact Hkey|]. split; [exact Hwf|].
  exact (@empty_set_same_as_None no_strings "customer_region" sample_frame []
           fs Hkey Hwf).
Defined.

Lemma negative_revenue_margin_zero_witness :
  (revenue_of (filtered_df (init [order_refund])) < 0)%Qc
  ∧ ∃ k, compute_kpis (init [order_refund]) = (Return k, init [order_refund])
      ∧ total_revenue k = revenue_of (filtered_df (init [order_refund]))
      ∧ profit_margin k = 0%Qc.
Proof.
  assert (Hneg : (revenue_of (filtered_df (init [order_refund])) < 0)%Qc).
  { vm_compute. reflexivity. }
  split; [exact Hneg|].
  exact (negative_revenue_margin_zero (init [order_refund]) Hneg).
Defined.

(** C6 as the specification words it fails on a full record set of
    negative revenue: no filter is set, the margin that [compute_kpis]
    returns is 0, and the margin formula gives -10 on the full record
    set. *)
Lemma compute_kpis_unfiltered_counterexample :
  let self := (@apply_filters no_strings (init [order_refund])).2 in
  all_unset (filters (init [order_refund]))
  ∧ @apply_filters no_strings (init [order_refund]) = (Return tt, self)
  ∧ ∃ k, compute_kpis self = (Return k, self)
      ∧ profit_margin k = 0%Qc
      ∧ profit_margin (kpi_formulas [order_refund]) = Qc_of_Z (-10)
      ∧ k ≠ kpi_formulas [order_refund].
Proof.
  intros self.
  split; [apply init_all_unset|]. split; [reflexivity|].
  eexists. rewrite compute_kpis_kpis, kpis_guarded.
  split; [reflexivity|].
  split; [by apply Qc_is_canon|].
  split; [by apply Qc_is_canon|].
  intros Heq. apply (f_equal (λ k, this (profit_margin k))) in Heq.
  vm_compute in Heq. discriminate.
Qed.

Lemma compute_kpis_unfiltered_witness :
  all_unset (filters (init sample_frame))
  ∧ (@apply_filters no_strings (init sample_frame)).1 = Return tt
  ∧ filtered_df (@apply_filters no_strings (init sample_frame)).2 = sample_frame
  ∧ compute_kpis (@apply_filters no_strings (init sample_frame)).2
    = (Return (mkKPIs (Qc_of_Z 300) (Qc_of_Z 5) 3
                      (Q2Qc (5 # 3)) (Qc_of_Z 100) (Q2Qc (200 # 3)) 1),
       (@apply_filters no_strings (init sample_frame)).2)
  ∧ all_unset (filters (init sample_frame))
  ∧ compute_kpis (init sample_frame)
    = (Return (kpi_formulas_guarded sample_frame), init sample_frame).
Proof.
  assert (Hfs : all_unset (filters (init sample_frame))).
  { repeat constructor. }
  split; [exact Hfs|].
  pose proof (@compute_kpis_unfiltered no_strings (init sample_frame) Hfs) as Hk.
  destruct Hk as (Hret & Hview & Hkpis & Hinit & Hkpis').
  split; [exact Hret|]. split; [exact Hview|].
  split; [|split; [exact Hinit|exact Hkpis']].
  etransitivity; [exact Hkpis|].
  f_equal. f_equal. unfold sample_frame.
  f_equal; apply Qc_is_canon; reflexivity.
Defined.

Lemma load_data_cache_hit_witness :
  let path := "data/ecommerce_sales_data.csv" in
  let w1 := (@load_data disk path world_start).2 in
  @load_data disk path world_start = (Return sample_frame, w1)
  ∧ @load_data disk path w1 = (Return sample_frame, w1)
  ∧ @load_data disk path world_file_removed
    = (Return sample_frame, world_file_removed).
Proof.
  intros path w1.
  assert (Hload : @load_data disk path world_start = (Return sample_frame, w1)).
  { vm_compute. reflexivity. }
  split; [exact Hload|].
  exact (@load_data_cache_hit disk path world_start sample_frame w1
           (∅ : gmap string DataFrame) Hload).
Defined.


(** The dataset loads. *)
Example load_data_dataset :
  (@load_data csv "data/ecommerce_sales_data.csv" csv_start).1
  = Return csv_dataset.
Proof. reflexivity. Qed.

(** A file that is no table and a path without a file are unreadable:
    the load raises. *)
Example load_data_garbled :
  @load_data csv "data/garbled.csv" csv_start = (Raise ValueError, csv_start)
  ∧ @load_data csv "data/missing.csv" csv_start
    = (Raise FileNotFoundError, csv_start).
Proof. split; reflexivity. Qed.

(** Texts that the format refuses: the year first, another separator,
    a day that the month lacks, a year of two digits, text after the
    year. *)
Example strptime_refuses :
  Forall (λ val, strptime val = Raise ValueError)
    ["2021-03-15"; "15/03/2021"; "31-02-2021"; "15-03-21"; "15-03-2021 "].
Proof. repeat constructor. Qed.

(** * The option lists, the page script and the charts *)

(** ** Distinct values and sorting *)

Lemma elem_of_unique {A} `{EqDecision A} (s : list A) x :
  x ∈ unique s ↔ x ∈ s.
Proof.
  induction s as [|y s IH]; simpl; [done|].
  rewrite !elem_of_cons, list_elem_of_filter, IH.
  destruct (decide (x = y)); naive_solver.
Qed.

Lemma NoDup_unique {A} `{EqDecision A} (s : list A) : NoDup (unique s).
Proof.
  induction s as [|y s IH]; simpl; [constructor|].
  apply NoDup_cons. split; [|by apply NoDup_filter].
  rewrite list_elem_of_filter. naive_solver.
Qed.

Lemma sorted_Permutation l : sorted l ≡ₚ l.
Proof. apply merge_sort_Permutation. Qed.

Lemma elem_of_sorted l x : x ∈ sorted l ↔ x ∈ l.
Proof. by rewrite sorted_Permutation. Qed.

Lemma StronglySorted_sorted l : StronglySorted String.le (sorted l).
Proof. apply StronglySorted_merge_sort; apply _. Qed.

(** A sorted list without duplicates ascends strictly. *)
Lemma StronglySorted_strict (l : list string) :
  StronglySorted String.le l → NoDup l → StronglySorted (strict String.le) l.
Proof.
  induction 1 as [|x l Hl IH Hx]; intros Hnd; [constructor|].
  apply NoDup_cons in Hnd as [Hnotin Hnd].
  constructor; [by apply IH|].
  rewrite Forall_forall in Hx |- *. intros y Hy.
  split; [by apply Hx|]. intros Hyx.
  assert (x = y) by (apply (anti_symm String.le); auto). by subst.
Qed.

Lemma sorted_unique_strict s :
  StronglySorted (strict String.le) (sorted (unique s)).
Proof.
  apply StronglySorted_strict; [apply StronglySorted_sorted|].
  rewrite sorted_Permutation. apply NoDup_unique.
Qed.

Lemma elem_of_sorted_unique s x : x ∈ sorted (unique s) ↔ x ∈ s.
Proof. by rewrite elem_of_sorted, elem_of_unique. Qed.

(** X1. [unique_values] returns, without touching the object, the
    labels that occur in the column of the full record set, each once,
    in strictly ascending order. *)
Theorem unique_values_sorted_distinct col self :
  ∃ values,
    unique_values col self = (Return values, self)
    ∧ StronglySorted (strict String.le) values
    ∧ NoDup values
    ∧ ∀ x, x ∈ values ↔ x ∈ col.2 <$> df self.
Proof.
  eexists. split; [reflexivity|]. split_and!.
  - apply sorted_unique_strict.
  - rewrite sorted_Permutation. apply NoDup_unique.
  - intros x. apply elem_of_sorted_unique.
Qed.

(** ** The page with every option selected *)

Lemma filter_all_elem {A} (P : A → Prop) `{!∀ x, Decision (P x)} (l : list A) :
  (∀ x, x ∈ l → P x) → filter P l = l.
Proof.
  induction l as [|x l IH]; intros HP; [done|].
  rewrite filter_cons_True by (apply HP; left).
  rewrite IH; [done|]. intros y Hy. apply HP. by right.
Qed.

Lemma dict_get_page_kwargs d v1 v2 v3 v4 v5 fs :
  let kwargs := page_kwargs d v1 v2 v3 v4 v5 in
  dict_get (kwargs ∪ fs) "date_range" = d
  ∧ dict_get (kwargs ∪ fs) "customer_region" = v1
  ∧ dict_get (kwargs ∪ fs) "category_name" = v2
  ∧ dict_get (kwargs ∪ fs) "customer_segment" = v3
  ∧ dict_get (kwargs ∪ fs) "delivery_status" = v4
  ∧ dict_get (kwargs ∪ fs) "shipping_type" = v5.
Proof.
  intros kwargs. unfold dict_get, kwargs, page_kwargs.
  split_and!; by simplify_map_eq.
Qed.

Lemma dict_get_page_defaults d frame fs :
  Forall (λ col, dict_get (page_defaults d frame ∪ fs) col.1
                 = select_all col frame) categorical_columns.
Proof.
  unfold page_defaults.
  destruct (dict_get_page_kwargs d
    (select_all ("customer_region", customer_region) frame)
    (select_all ("category_name", category_name) frame)
    (select_all ("customer_segment", customer_segment) frame)
    (select_all ("delivery_status", delivery_status) frame)
    (select_all ("shipping_type", shipping_type) frame) fs)
    as (_ & H1 & H2 & H3 & H4 & H5).
  repeat constructor; assumption.
Qed.

Lemma dict_get_page_defaults_date d frame fs :
  dict_get (page_defaults d frame ∪ fs) "date_range" = d.
Proof.
  unfold page_defaults.
  exact (proj1 (dict_get_page_kwargs d
    (select_all ("customer_region", customer_region) frame)
    (select_all ("category_name", category_name) frame)
    (select_all ("customer_segment", customer_segment) frame)
    (select_all ("delivery_status", delivery_status) frame)
    (select_all ("shipping_type", shipping_type) frame) fs)).
Qed.

(** A filter that holds every label of the column lets every record of
    the frame through. *)
Lemma allowed_select_all fs col frame r :
  dict_get fs col.1 = select_all col frame → r ∈ frame → allowed fs col r.
Proof.
  intros Hget Hr. unfold allowed. rewrite Hget. unfold select_all.
  destruct (sorted (unique (col.2 <$> frame))) as [|x l] eqn:Hopts; [done|].
  assert (Hin : col.2 r ∈ x :: l).
  { rewrite <- Hopts. apply elem_of_sorted_unique.
    by apply list_elem_of_fmap_2. }
  exact (list_elem_of_fmap_2 AStr (x :: l) _ Hin).
Qed.

Section PageDefaults.

Context `{ToDatetime}.

(** With every option selected, the loop over the columns keeps every
    record that it is given from the frame. *)
Lemma foldl_filter_column_select_all fs frame part :
  Forall (λ col, dict_get fs col.1 = select_all col frame) categorical_columns →
  part ⊆ frame →
  foldl (filter_column fs) part categorical_columns = part.
Proof.
  intros Hfs Hpart. rewrite foldl_filter_column. apply filter_all_elem.
  intros r Hr. apply Forall_forall. intros col Hcol.
  rewrite Forall_forall in Hfs.
  eapply allowed_select_all; [by apply Hfs|]. by apply Hpart.
Qed.

Lemma view_select_all fs frame :
  well_formed fs →
  Forall (λ col, dict_get fs col.1 = select_all col frame) categorical_columns →
  view fs frame = Return (filter (in_date_range fs) frame).
Proof.
  intros Hwf Hfs. unfold view.
  rewrite (date_stage_in_date_range _ _ Hwf).
  unfold mbind, result_bind, mret, result_ret. f_equal.
  apply (foldl_filter_column_select_all fs frame); [done|].
  intros r. rewrite list_elem_of_filter. tauto.
Qed.

(** X2. The call of the page with every option of the five
    multiselects selected restricts by the date range only: it stores
    as Filtered View the records of the full record set whose order
    date lies in the range, whatever the filters were before. *)
Theorem page_defaults_filter_by_date_only date_range self :
  let kwargs := page_defaults date_range (df self) in
  well_formed (kwargs ∪ filters self) →
  set_filters kwargs self =
  (Return tt,
   {| df := df self;
      filtered_df := filter (in_date_range (kwargs ∪ filters self)) (df self);
      filters := kwargs ∪ filters self |}).
Proof.
  intros kwargs Hwf. rewrite set_filters_unfold, apply_filters_view; simpl.
  rewrite view_select_all; [done..|]. apply dict_get_page_defaults.
Qed.

(** X3. When, besides, the date range covers the order date of every
    record (as the range from the earliest to the latest order date
    does on records that all have a date), the page shows the whole
    dataset: the Filtered View is the full record set and
    [compute_kpis] returns the KPIs of the full record set. *)
Theorem page_defaults_show_everything lo hi self :
  let kwargs := page_defaults (PySeq [ADate lo; ADate hi]) (df self) in
  Forall (λ r, ts_leq (Some lo) (order_date r)
               ∧ ts_leq (order_date r) (Some hi)) (df self) →
  (set_filters kwargs self).1 = Return tt
  ∧ filtered_df (set_filters kwargs self).2 = df self
  ∧ (compute_kpis (set_filters kwargs self).2).1 = kpis (df self).
Proof.
  intros kwargs Hcover.
  assert (Hdate : dict_get (kwargs ∪ filters self) "date_range"
                  = PySeq [ADate lo; ADate hi]).
  { exact (dict_get_page_defaults_date _ (df self) (filters self)). }
  assert (Hwf : well_formed (kwargs ∪ filters self)).
  { unfold well_formed, date_interval. rewrite Hdate. simpl. eauto. }
  assert (Hview : filter (in_date_range (kwargs ∪ filters self)) (df self)
                  = df self).
  { apply filter_all_elem. intros r Hr.
    unfold in_date_range, date_interval. rewrite Hdate. simpl.
    rewrite Forall_forall in Hcover. by apply Hcover. }
  assert (Hrun : set_filters kwargs self =
                 (Return tt, {| df := df self; filtered_df := df self;
                                filters := kwargs ∪ filters self |})).
  { rewrite set_filters_unfold, apply_filters_view. cbn [df filters].
    rewrite view_select_all; [|done|apply dict_get_page_defaults].
    by rewrite Hview. }
  rewrite Hrun. by rewrite compute_kpis_kpis.
Qed.

End PageDefaults.

(** ** Sums by group *)

Lemma series_sum_cons x s : series_sum (x :: s) = (x + series_sum s)%Qc.
Proof. done. Qed.

Lemma length_unique {A} `{EqDecision A} (s : list A) :
  (length (unique s) ≤ length s)%nat.
Proof.
  induction s as [|x s IH]; simpl; [lia|].
  pose proof (length_filter (λ y, y ≠ x) (unique s)). lia.
Qed.

Lemma groupby_keys_length key frame :
  (length (groupby_keys key frame) ≤ length (key <$> frame))%nat.
Proof.
  unfold groupby_keys. rewrite sorted_Permutation. apply length_unique.
Qed.

Lemma groupby_keys_NoDup key frame : NoDup (groupby_keys key frame).
Proof. unfold groupby_keys. rewrite sorted_Permutation. apply NoDup_unique. Qed.

Lemma elem_of_groupby_keys key frame k :
  k ∈ groupby_keys key frame ↔ k ∈ key <$> frame.
Proof. apply elem_of_sorted_unique. Qed.

Lemma groupby_sum_keys key value frame :
  (groupby_sum key value frame).*1 = groupby_keys key frame.
Proof.
  unfold groupby_sum. rewrite <- list_fmap_compose. apply list_fmap_id.
Qed.

(** X4. The pie of [create_sales_by_category_chart] has one slice for
    each category that occurs in the Filtered View and no other, in
    strictly ascending order of the labels (so no label comes twice);
    it has no slice exactly when the view has no record, and never
    more slices than the view has records. *)
Theorem category_sales_slices self :
  ∃ slices,
    category_sales self = (Return slices, self)
    ∧ StronglySorted (strict String.le) slices.*1
    ∧ (∀ label, label ∈ slices.*1 ↔ label ∈ category_name <$> filtered_df self)
    ∧ (slices = [] ↔ filtered_df self = [])
    ∧ (length slices ≤ length (filtered_df self))%nat.
Proof.
  eexists. split; [reflexivity|].
  rewrite groupby_sum_keys.
  split_and!; [apply sorted_unique_strict|intros label; apply elem_of_groupby_keys| |].
  - split.
    + intros Hnil. destruct (filtered_df self) as [|r frame] eqn:Hview; [done|].
      assert (Hin : category_name r ∈ (groupby_sum category_name sales_per_order
                                         (r :: frame)).*1).
      { rewrite groupby_sum_keys. apply elem_of_groupby_keys.
        rewrite fmap_cons. left. }
      rewrite Hnil in Hin. by apply elem_of_nil in Hin.
    + by intros ->.
  - rewrite <- (length_fmap fst), groupby_sum_keys.
    rewrite <- (length_fmap category_name (filtered_df self)).
    apply groupby_keys_length.
Qed.

(** ** The box plot of the margins *)

Lemma Q_margin_between (p s : Q) :
  ¬ (s == 0)%Q →
  ((-100 <= p / s * 100)%Q ∧ (p / s * 100 <= 100)%Q) ↔ (p * p <= s * s)%Q.
Proof.
  intros Hs. assert (Hp : (p == p / s * s)%Q) by (field; done).
  assert (Hss : (0 < s * s)%Q).
  { destruct (Q_dec s 0) as [[Hlt|Hgt]|Heq]; [nra|nra|tauto]. }
  revert Hp. generalize (p / s)%Q. intros q Hp.
  assert (Hpp : (p * p == q * q * (s * s))%Q) by (rewrite Hp at 1 2; ring).
  rewrite Hpp. clear Hp Hpp. revert Hss. generalize (s * s)%Q. intros t Ht.
  split.
  - intros [H1 H2]. assert (q * q <= 1)%Q by nra. nra.
  - intros Hq. assert (q * q <= 1)%Q.
    { destruct (Qlt_le_dec 1 (q * q)); [|done]. exfalso. nra. }
    split; nra.
Qed.

(** The margin of a row lies between -100 and 100 exactly when the row
    has sales and its profit is at most its sales in absolute value. *)
Lemma row_margin_between r :
  between_100 (row_margin r) ↔
  sales_per_order r ≠ 0%Qc
  ∧ (profit_per_order r * profit_per_order r
     ≤ sales_per_order r * sales_per_order r)%Qc.
Proof.
  unfold row_margin. destruct (decide (sales_per_order r = 0%Qc)) as [Hz|Hnz].
  { simpl. tauto. }
  assert (Hs : ¬ (this (sales_per_order r) == 0)%Q).
  { intros Heq. apply Hnz. by apply Qc_is_canon. }
  unfold between_100, Qcle, Qc_of_Z, Qcdiv, Qcmult, Qcinv, Q2Qc; cbn [this].
  pose proof (Q_margin_between (profit_per_order r) (sales_per_order r) Hs)
    as Hq.
  rewrite !Qred_correct. split.
  - intros Hm. split; [done|]. rewrite !Qred_correct. by apply Hq.
  - intros [_ Hm]. rewrite !Qred_correct in Hm. by apply Hq in Hm.
Qed.

Lemma filter_fmap_pair {A B} (f : A → B) (P : B → Prop)
    `{!∀ y, Decision (P y)} (l : list A) :
  filter P (f <$> l) = f <$> filter (λ x, P (f x)) l.
Proof.
  induction l as [|x l IH]; [done|].
  rewrite fmap_cons, !filter_cons, IH. by destruct (decide (P (f x))).
Qed.

(** X5. The frame of the box plot of
    [create_profit_margin_by_category_chart] holds, in their order and
    each with its margin, the records of the Filtered View that have
    sales and whose profit is at most the sales in absolute value: a
    record without sales is never plotted. *)
Theorem margin_frame_rows self :
  margin_frame self =
  (Return ((λ r, (r, row_margin r)) <$>
           filter (λ r, sales_per_order r ≠ 0%Qc
                        ∧ (profit_per_order r * profit_per_order r
                           ≤ sales_per_order r * sales_per_order r)%Qc)
                  (filtered_df self)),
   self).
Proof.
  unfold margin_frame, mbind, M_bind, gets, mret, M_ret. do 2 f_equal.
  rewrite filter_fmap_pair. f_equal. apply list_filter_iff.
  intros r. apply row_margin_between.
Qed.

(** ** The shortening of names *)

Lemma length_substring_0 n s :
  String.length (String.substring 0 n s) = (n `min` String.length s)%nat.
Proof.
  revert s. induction n as [|n IH]; intros [|c s]; simpl; auto.
Qed.

Lemma length_string_app s1 s2 :
  String.length (s1 +:+ s2) = (String.length s1 + String.length s2)%nat.
Proof. induction s1 as [|c s1 IH]; simpl; auto. Qed.

Lemma substring_0_app s1 s2 :
  String.substring 0 (String.length s1) (s1 +:+ s2) = s1.
Proof.
  induction s1 as [|c s1 IH]; simpl; [by destruct s2|]. by rewrite IH.
Qed.

(** X6. The name as shortened to [n] characters: a name of at most [n]
    characters is handed back as it is; a longer one comes back with
    [n + 3] characters (so a name of [n + 1] or [n + 2] characters
    grows), and its first [n] characters are those of the name. *)
Theorem shorten_length_prefix n x :
  String.length (shorten n x)
  = (if bool_decide (n < String.length x)%nat then n + 3
     else String.length x)%nat
  ∧ String.substring 0 n (shorten n x) = String.substring 0 n x
  ∧ (if bool_decide (n < String.length x)%nat
     then shorten n x = String.substring 0 n x +:+ "..."
     else shorten n x = x).
Proof.
  unfold shorten. case_bool_decide as Hlen; [|done].
  assert (Hn : String.length (String.substring 0 n x) = n).
  { rewrite length_substring_0. lia. }
  split_and!; [|  |done].
  - rewrite length_string_app, Hn. done.
  - rewrite <- Hn at 1. apply substring_0_app.
Qed.

(** ** The radar chart of the regions *)

Lemma add_norm_norm_column table norms col :
  add_norm table norms col =
  match norm_column table col with
  | Some values => <[col.1 +:+ "_norm" := values]> norms
  | None => norms
  end.
Proof.
  unfold add_norm, norm_column.
  destruct (series_max _) as [max_val|]; [|done]. by case_bool_decide.
Qed.

(** The five columns of the loop, as the chart looks them up. *)
Lemma norm_columns_lookup table :
  norm_columns table !! "revenue_norm" = norm_column table ("revenue", revenue)
  ∧ norm_columns table !! "profit_norm" = norm_column table ("profit", profit)
  ∧ norm_columns table !! "orders_norm"
    = norm_column table ("orders", λ m, Qc_of_nat (orders m))
  ∧ norm_columns table !! "aov_norm" = norm_column table ("aov", aov)
  ∧ norm_columns table !! "on_time_pct_norm"
    = norm_column table ("on_time_pct", on_time_pct).
Proof.
  unfold norm_columns, metric_columns. cbn [foldl].
  rewrite !add_norm_norm_column. cbn [fst String.append].
  destruct (norm_column table ("revenue", revenue)),
    (norm_column table ("profit", profit)),
    (norm_column table ("orders", λ m, Qc_of_nat (orders m))),
    (norm_column table ("aov", aov)),
    (norm_column table ("on_time_pct", on_time_pct));
    split_and!; by simplify_map_eq.
Qed.

Lemma series_max_Some s m :
  series_max s = Some m → m ∈ s ∧ Forall (λ x, x ≤ m)%Qc s.
Proof.
  revert m. induction s as [|x s IH]; intros m; [done|].
  cbn [series_max]. destruct (series_max s) as [m'|] eqn:Hmax.
  - destruct (IH m' eq_refl) as [Hin Hle]. intros [= <-].
    destruct (decide (x ≤ m')%Qc) as [Hx|Hx].
    + split; [by right|]. by constructor.
    + apply Qcnot_le_lt in Hx. split; [left|].
      constructor; [apply Qcle_refl|].
      eapply Forall_impl; [done|]. simpl. intros y Hy.
      eapply Qcle_trans; [done|]. by apply Qclt_le_weak.
  - intros [= <-].
    destruct s as [|y s'];
      [|cbn [series_max] in Hmax; by destruct (series_max s')].
    split; [left|]. constructor; [apply Qcle_refl|constructor].
Qed.

Lemma series_max_is_Some s : s ≠ [] → is_Some (series_max s).
Proof. destruct s; [done|]. cbn [series_max]. destruct (series_max s); eauto. Qed.

(** The greatest value is above 0 exactly when some value is. *)
Lemma series_max_pos s :
  (∃ m, series_max s = Some m ∧ (0 < m)%Qc) ↔ ∃ x, x ∈ s ∧ (0 < x)%Qc.
Proof.
  split.
  - intros (m & Hmax & Hpos). apply series_max_Some in Hmax as [Hin _]. eauto.
  - intros (x & Hin & Hpos).
    destruct (series_max_is_Some s) as [m Hmax].
    { intros ->. by apply elem_of_nil in Hin. }
    exists m. split; [done|].
    apply series_max_Some in Hmax as [_ Hle].
    rewrite Forall_forall in Hle. eapply Qclt_le_trans; [done|]. by apply Hle.
Qed.

Lemma norm_column_is_Some table col :
  is_Some (norm_column table col) ↔ ∃ m, m ∈ table ∧ (0 < col.2 m)%Qc.
Proof.
  transitivity (∃ x, x ∈ col.2 <$> table ∧ (0 < x)%Qc).
  - rewrite <- series_max_pos. unfold norm_column.
    destruct (series_max _) as [max_val|].
    + case_bool_decide as Hpos.
      * split; [eauto|]. intros _. eauto.
      * split; [by intros [? ?]|]. intros (m & [= <-] & ?). done.
    + split; [by intros [? ?]|]. by intros (m & ? & ?).
  - split.
    + intros (x & Hin & Hpos).
      apply list_elem_of_fmap in Hin as (m & -> & Hm). eauto.
    + intros (m & Hm & Hpos). exists (col.2 m).
      split; [by apply list_elem_of_fmap_2|done].
Qed.

(** A normalised column holds, row by row, the share of the greatest
    value, which is above 0. *)
Lemma norm_column_values table col values :
  norm_column table col = Some values →
  ∃ max_val,
    series_max (col.2 <$> table) = Some max_val
    ∧ (0 < max_val)%Qc
    ∧ values = (λ m, col.2 m / max_val * Qc_of_Z 100)%Qc <$> table.
Proof.
  unfold norm_column. destruct (series_max _) as [max_val|]; [|done].
  case_bool_decide; [|done]. intros [= <-]. eauto.
Qed.

(** *** Positive rationals *)

Lemma Qc_of_nat_pos n : (0 < Qc_of_nat n)%Qc ↔ (0 < n)%nat.
Proof.
  unfold Qc_of_nat, Qc_of_Z, Qclt, Q2Qc; cbn [this].
  rewrite !Qred_correct. unfold Qlt; simpl. lia.
Qed.

Lemma Qc_share_pos (a b : Qc) :
  (0 < b)%Qc → (0 < a / b * Qc_of_Z 100)%Qc ↔ (0 < a)%Qc.
Proof.
  unfold Qc_of_Z, Qclt, Qcdiv, Qcmult, Qcinv, Q2Qc; cbn [this].
  rewrite !Qred_correct. intros Hb.
  pose proof (Qinv_lt_0_compat _ Hb) as Hi.
  change (inject_Z 100) with 100%Q.
  revert Hi. generalize (/ b)%Q. intros i Hi. split; intros Ha; nra.
Qed.

Lemma Qc_div_pos (a b : Qc) : (0 < b)%Qc → (0 < a / b)%Qc ↔ (0 < a)%Qc.
Proof.
  unfold Qclt, Qcdiv, Qcmult, Qcinv, Q2Qc; cbn [this].
  rewrite !Qred_correct. intros Hb.
  pose proof (Qinv_lt_0_compat _ Hb) as Hi.
  revert Hi. generalize (/ b)%Q. intros i Hi. split; intros Ha; nra.
Qed.

(** The share of the greatest value is at most 100, and 100 for the
    greatest value itself. *)
Lemma Qc_share_le_100 (a b : Qc) :
  (0 < b)%Qc → (a ≤ b)%Qc → (a / b * Qc_of_Z 100 ≤ Qc_of_Z 100)%Qc.
Proof.
  unfold Qc_of_Z, Qclt, Qcle, Qcdiv, Qcmult, Qcinv, Q2Qc; cbn [this].
  rewrite !Qred_correct. intros Hb Hab.
  assert (Hbi : (b * / b == 1)%Q) by (apply Qmult_inv_r; lra).
  pose proof (Qinv_lt_0_compat _ Hb) as Hi.
  change (inject_Z 100) with 100%Q.
  revert Hbi Hi. generalize (/ b)%Q. intros i Hbi Hi. nra.
Qed.

Lemma Qc_share_self (b : Qc) :
  (0 < b)%Qc → (b / b * Qc_of_Z 100)%Qc = Qc_of_Z 100.
Proof.
  intros Hb. unfold Qcdiv. rewrite Qcmult_inv_r; [ring|].
  intros ->. by apply Qclt_not_le in Hb.
Qed.

(** *** The table of the regions *)

Lemma region_metrics_metrics_of frame :
  region_metrics frame = metrics_of frame <$> groupby_keys customer_region frame.
Proof. done. Qed.

Lemma region_metrics_regions frame :
  region <$> region_metrics frame = groupby_keys customer_region frame.
Proof.
  rewrite region_metrics_metrics_of, <- list_fmap_compose. apply list_fmap_id.
Qed.

Lemma elem_of_region_metrics frame m :
  m ∈ region_metrics frame ↔
  ∃ k, m = metrics_of frame k ∧ k ∈ customer_region <$> frame.
Proof.
  rewrite region_metrics_metrics_of, list_elem_of_fmap.
  by setoid_rewrite elem_of_groupby_keys.
Qed.

Lemma group_nonempty key k frame : group key k frame ≠ [] ↔ k ∈ key <$> frame.
Proof.
  unfold group. split.
  - intros Hne. destruct (filter _ frame) as [|r rows] eqn:Hrows; [done|].
    assert (Hr : r ∈ filter (λ r, key r = k) frame) by (rewrite Hrows; left).
    apply list_elem_of_filter in Hr as [<- Hr]. by apply list_elem_of_fmap_2.
  - intros Hk Hnil. apply list_elem_of_fmap in Hk as (r & -> & Hr).
    by eapply filter_nil_not_elem_of.
Qed.

(** Every row of the table counts at least one order: the columns
    [aov] and [on_time_pct] divide by a count that is not 0. *)
Lemma region_metrics_orders frame m :
  m ∈ region_metrics frame → (0 < orders m)%nat.
Proof.
  intros (k & -> & Hk)%elem_of_region_metrics. simpl.
  apply group_nonempty in Hk. destruct (group _ _ _); [done|simpl; lia].
Qed.

Lemma region_metrics_nil frame : region_metrics frame = [] ↔ frame = [].
Proof.
  split; [|by intros ->].
  destruct frame as [|r frame]; [done|]. intros Hnil.
  assert (Hm : metrics_of (r :: frame) (customer_region r)
               ∈ region_metrics (r :: frame)).
  { apply elem_of_region_metrics. eexists. split; [done|]. left. }
  rewrite Hnil in Hm. by apply elem_of_nil in Hm.
Qed.

Lemma some_region_positive_metrics (value : Row → Qc)
    (column : RegionMetrics → Qc) frame :
  (∀ k, column (metrics_of frame k)
        = series_sum (value <$> group customer_region k frame)) →
  (∃ m, m ∈ region_metrics frame ∧ (0 < column m)%Qc)
  ↔ some_region_positive value frame.
Proof.
  intros Hcol. unfold some_region_positive. split.
  - intros (m & (k & -> & _)%elem_of_region_metrics & Hpos).
    exists k. by rewrite <- Hcol.
  - intros (k & Hpos). exists (metrics_of frame k).
    split; [|by rewrite Hcol]. apply elem_of_region_metrics.
    eexists. split; [done|]. apply group_nonempty. intros Hnil.
    rewrite Hnil in Hpos. by apply Qclt_not_le in Hpos.
Qed.

Lemma count_status_pos status rows :
  (0 < count_status status rows)%nat
  ↔ Exists (λ r, delivery_status r = status) rows.
Proof.
  unfold count_status. rewrite Exists_exists. split.
  - destruct (filter _ rows) as [|r l] eqn:Hrows; simpl; [lia|]. intros _.
    assert (Hr : r ∈ filter (λ r, delivery_status r = status) rows)
      by (rewrite Hrows; left).
    apply list_elem_of_filter in Hr as [? ?]. eauto.
  - intros (r & Hr & Hs).
    destruct (filter _ rows) as [|r' l] eqn:Hrows; simpl; [|lia].
    exfalso. exact (filter_nil_not_elem_of _ _ r Hrows Hs Hr).
Qed.

Lemma on_time_metrics frame :
  (∃ m, m ∈ region_metrics frame ∧ (0 < on_time_pct m)%Qc)
  ↔ Exists (λ r, delivery_status r = "Shipping on time") frame.
Proof.
  assert (Hpct : ∀ m, m ∈ region_metrics frame →
    (0 < on_time_pct m)%Qc ↔
    Exists (λ r, delivery_status r = "Shipping on time")
           (group customer_region (region m) frame)).
  { intros m Hm. pose proof (region_metrics_orders _ _ Hm) as Hord.
    apply elem_of_region_metrics in Hm as (k & -> & Hk).
    unfold metrics_of in *. cbn [on_time_pct region orders] in *.
    rewrite Qc_share_pos by by apply Qc_of_nat_pos.
    by rewrite Qc_of_nat_pos, mask_sum_status, count_status_pos. }
  rewrite !Exists_exists. split.
  - intros (m & Hm & Hpos). apply Hpct in Hpos; [|done].
    apply Exists_exists in Hpos as (r & Hr & Hs).
    apply list_elem_of_filter in Hr as [_ Hr]. eauto.
  - intros (r & Hr & Hs). exists (metrics_of frame (customer_region r)).
    assert (Hm : metrics_of frame (customer_region r) ∈ region_metrics frame).
    { apply elem_of_region_metrics. eexists. split; [done|].
      by apply list_elem_of_fmap_2. }
    split; [done|]. apply Hpct; [done|]. apply Exists_exists.
    exists r. split; [|done]. by apply list_elem_of_filter.
Qed.

(** The loop adds all five columns exactly when the frame has a region
    of positive sales, a region of positive profit and a delivery on
    time. *)
Lemma all_norms_iff frame :
  all_norms (region_metrics frame) ↔ radar_metrics_positive frame.
Proof.
  unfold all_norms, metric_columns, radar_metrics_positive.
  rewrite !Forall_cons, Forall_nil, !norm_column_is_Some; cbn [snd].
  rewrite (some_region_positive_metrics sales_per_order revenue) by done.
  rewrite (some_region_positive_metrics profit_per_order profit) by done.
  rewrite on_time_metrics. split; [tauto|].
  intros (Hsales & Hprofit & Hon_time). split_and!; try done.
  - apply Exists_exists in Hon_time as (r & Hr & _).
    exists (metrics_of frame (customer_region r)).
    assert (Hm : metrics_of frame (customer_region r) ∈ region_metrics frame).
    { apply elem_of_region_metrics. eexists. split; [done|].
      by apply list_elem_of_fmap_2. }
    split; [done|]. apply Qc_of_nat_pos. by eapply region_metrics_orders.
  - apply (some_region_positive_metrics sales_per_order revenue) in Hsales
      as (m & Hm & Hpos); [|done].
    exists m. split; [done|].
    pose proof (region_metrics_orders _ _ Hm) as Hord.
    apply elem_of_region_metrics in Hm as (k & -> & Hk).
    unfold metrics_of in *. cbn [aov revenue orders] in *.
    apply Qc_div_pos; [by apply Qc_of_nat_pos|done].
Qed.

(** *** The loop over the regions *)

Lemma zip_fmap_self {A B} (f : A → B) (l : list A) :
  zip l (f <$> l) = (λ x, (x, f x)) <$> l.
Proof.
  induction l as [|x l IH]; [done|].
  rewrite !fmap_cons. cbn [zip_with]. by rewrite IH.
Qed.

Lemma norm_column_norm_value table col values :
  norm_column table col = Some values →
  values = norm_value table col <$> table.
Proof.
  intros (max_val & Hmax & _ & ->)%norm_column_values.
  unfold norm_value. by rewrite Hmax.
Qed.

Lemma region_row_Some table reg m :
  region_row table reg = Some m → m ∈ table ∧ region m = reg.
Proof.
  unfold region_row. intros Hhead.
  destruct (filter _ table) as [|m' l] eqn:Hrows; [done|].
  injection Hhead as ->.
  assert (Hm : m ∈ filter (λ m, region m = reg) table) by (rewrite Hrows; left).
  apply list_elem_of_filter in Hm. tauto.
Qed.

Lemma region_row_is_Some table reg :
  reg ∈ region <$> table → is_Some (region_row table reg).
Proof.
  intros (m & -> & Hm)%list_elem_of_fmap. unfold region_row.
  destruct (filter _ table) as [|m' l] eqn:Hrows; [|by eexists].
  exfalso. exact (filter_nil_not_elem_of _ _ m Hrows eq_refl Hm).
Qed.

(** With one row for each region, the row found for the region of a row
    is that row. *)
Lemma region_row_NoDup table m :
  NoDup (region <$> table) → m ∈ table → region_row table (region m) = Some m.
Proof.
  unfold region_row. induction table as [|x table IH]; intros Hnd Hm.
  { by apply elem_of_nil in Hm. }
  rewrite fmap_cons in Hnd. apply NoDup_cons in Hnd as [Hx Hnd].
  rewrite filter_cons. destruct (decide (region x = region m)) as [Heq|Hne].
  - apply elem_of_cons in Hm as [->|Hm]; [done|].
    exfalso. apply Hx. rewrite Heq. by apply list_elem_of_fmap_2.
  - apply elem_of_cons in Hm as [->|Hm]; [done|]. by apply IH.
Qed.

(** The look-up of one normalised value: the column is missing, or the
    value of the row of the region is found. *)
Lemma loc_first_norm_columns table reg m col name :
  norm_columns table !! name = norm_column table col →
  region_row table reg = Some m →
  loc_first table (norm_columns table) reg name =
  match norm_column table col with
  | Some _ => Done (norm_value table col m)
  | None => Failed (KeyError name)
  end.
Proof.
  intros Hname Hrow. unfold loc_first. rewrite Hname.
  destruct (norm_column table col) as [values|] eqn:Hcol; [|done].
  rewrite (norm_column_norm_value _ _ _ Hcol).
  rewrite (zip_fmap_self (norm_value table col) table).
  rewrite filter_fmap_pair.
  unfold region_row in Hrow. cbn [fst].
  destruct (filter (λ m, region m = reg) table); [done|].
  by injection Hrow as ->.
Qed.

Lemma trace_values_norm_columns table reg m :
  region_row table reg = Some m →
  trace_values table (norm_columns table) reg =
  (v1 ← (match norm_column table ("revenue", revenue) with
         | Some _ => Done (norm_value table ("revenue", revenue) m)
         | None => Failed (KeyError "revenue_norm")
         end);
   v2 ← (match norm_column table ("profit", profit) with
         | Some _ => Done (norm_value table ("profit", profit) m)
         | None => Failed (KeyError "profit_norm")
         end);
   v3 ← (match norm_column table ("orders", λ m, Qc_of_nat (orders m)) with
         | Some _ =>
             Done (norm_value table ("orders", λ m, Qc_of_nat (orders m)) m)
         | None => Failed (KeyError "orders_norm")
         end);
   v4 ← (match norm_column table ("aov", aov) with
         | Some _ => Done (norm_value table ("aov", aov) m)
         | None => Failed (KeyError "aov_norm")
         end);
   v5 ← (match norm_column table ("on_time_pct", on_time_pct) with
         | Some _ => Done (norm_value table ("on_time_pct", on_time_pct) m)
         | None => Failed (KeyError "on_time_pct_norm")
         end);
   mret [v1; v2; v3; v4; v5]).
Proof.
  intros Hrow. unfold trace_values.
  destruct (norm_columns_lookup table) as (H1 & H2 & H3 & H4 & H5).
  by rewrite (loc_first_norm_columns _ _ _ _ _ H1 Hrow),
    (loc_first_norm_columns _ _ _ _ _ H2 Hrow),
    (loc_first_norm_columns _ _ _ _ _ H3 Hrow),
    (loc_first_norm_columns _ _ _ _ _ H4 Hrow),
    (loc_first_norm_columns _ _ _ _ _ H5 Hrow).
Qed.

Lemma trace_values_done table reg m :
  all_norms table →
  region_row table reg = Some m →
  trace_values table (norm_columns table) reg =
  Done ((λ col, norm_value table col m) <$> metric_columns).
Proof.
  intros Hall Hrow. rewrite (trace_values_norm_columns _ _ _ Hrow).
  unfold all_norms, metric_columns in Hall.
  rewrite !Forall_cons in Hall.
  destruct Hall as ([? ->] & [? ->] & [? ->] & [? ->] & [? ->] & _). done.
Qed.

Lemma trace_values_key_error table reg m :
  ¬ all_norms table →
  region_row table reg = Some m →
  ∃ column, trace_values table (norm_columns table) reg
            = Failed (KeyError column).
Proof.
  intros Hall Hrow. rewrite (trace_values_norm_columns _ _ _ Hrow).
  unfold all_norms, metric_columns in Hall.
  rewrite !Forall_cons in Hall.
  destruct (norm_column table ("revenue", revenue)); [|by eexists].
  destruct (norm_column table ("profit", profit)); [|by eexists].
  destruct (norm_column table ("orders", λ m, Qc_of_nat (orders m)));
    [|by eexists].
  destruct (norm_column table ("aov", aov)); [|by eexists].
  destruct (norm_column table ("on_time_pct", on_time_pct)); [|by eexists].
  exfalso. apply Hall. by repeat split.
Qed.

Lemma radar_traces_done table idx regions :
  all_norms table →
  Forall (λ reg, is_Some (region_row table reg)) regions →
  (idx + length regions ≤ 4)%nat →
  ∃ traces,
    radar_traces table (norm_columns table) idx regions = Done traces
    ∧ Forall2 (λ reg t,
        trace_name t = reg
        ∧ trace_theta t = categories
        ∧ ∃ m, region_row table reg = Some m
               ∧ trace_r t = (λ col, norm_value table col m) <$> metric_columns)
        regions traces
    ∧ trace_color <$> traces = take (length regions) (drop idx colors).
Proof.
  intros Hall Hrows. revert idx.
  induction Hrows as [|reg regions [m Hrow] _ IH]; intros idx Hidx.
  { exists []. by split_and!. }
  cbn [length] in Hidx. cbn [radar_traces].
  rewrite (trace_values_done _ _ _ Hall Hrow).
  destruct (colors !! idx) as [c|] eqn:Hcolor; last first.
  { apply lookup_ge_None in Hcolor. cbn in Hcolor. lia. }
  destruct (IH (S idx)) as (traces & -> & Hnames & Hcolors); [lia|].
  eexists. split; [reflexivity|]. split.
  - constructor; [|done]. split_and!; [done..|]. eauto.
  - rewrite fmap_cons, Hcolors. cbn [length trace_color].
    by rewrite (drop_S _ _ _ Hcolor).
Qed.

Lemma radar_traces_index_error table idx regions :
  all_norms table →
  Forall (λ reg, is_Some (region_row table reg)) regions →
  regions ≠ [] →
  (4 < idx + length regions)%nat →
  radar_traces table (norm_columns table) idx regions = Failed ListIndexError.
Proof.
  intros Hall Hrows. revert idx.
  induction Hrows as [|reg regions [m Hrow] Hrest IH]; intros idx Hne Hidx.
  { done. }
  cbn [length] in Hidx. cbn [radar_traces].
  rewrite (trace_values_done _ _ _ Hall Hrow).
  destruct (colors !! idx) as [c|] eqn:Hcolor; [|done].
  apply lookup_lt_Some in Hcolor. cbn in Hcolor.
  cbn [mbind chart_bind]. rewrite IH; [done| |lia].
  intros ->. cbn in Hidx. lia.
Qed.

Lemma radar_traces_key_error table idx reg regions :
  ¬ all_norms table →
  is_Some (region_row table reg) →
  ∃ column, radar_traces table (norm_columns table) idx (reg :: regions)
            = Failed (KeyError column).
Proof.
  intros Hall [m Hrow]. cbn [radar_traces].
  destruct (trace_values_key_error _ _ _ Hall Hrow) as (column & ->).
  by exists column.
Qed.

Lemma region_rows_found frame :
  Forall (λ reg, is_Some (region_row (region_metrics frame) reg))
         (region <$> region_metrics frame).
Proof. apply Forall_forall. intros reg. apply region_row_is_Some. Qed.

Global Instance all_norms_dec table : Decision (all_norms table).
Proof. unfold all_norms. apply _. Defined.

Section Radar.

Context `{PandasRelease}.

(** Past the division, on a frame that has a record, the chart is its
    loop over the regions. *)
Lemma regional_radar_nonempty frame :
  frame ≠ [] →
  regional_radar frame
  = radar_traces (region_metrics frame) (norm_columns (region_metrics frame))
                 0 (region <$> region_metrics frame).
Proof.
  intros Hne. unfold regional_radar, on_time_pct_division.
  destruct (region_metrics frame) as [|m table] eqn:Htable; [|done].
  by apply region_metrics_nil in Htable.
Qed.

Lemma regional_radar_empty :
  regional_radar []
  = if empty_aggregate_keeps_str then Failed TypeError else Done [].
Proof.
  unfold regional_radar, on_time_pct_division. cbn.
  by destruct empty_aggregate_keeps_str.
Qed.

(** How the chart ends, by the frame. *)
Lemma regional_radar_cases frame :
  let regions := groupby_keys customer_region frame in
  (frame = []
   ∧ regional_radar frame
     = if empty_aggregate_keeps_str then Failed TypeError else Done [])
  ∨ (frame ≠ [] ∧ ¬ radar_metrics_positive frame
     ∧ ∃ column, regional_radar frame = Failed (KeyError column))
  ∨ (frame ≠ [] ∧ radar_metrics_positive frame ∧ (4 < length regions)%nat
     ∧ regional_radar frame = Failed ListIndexError)
  ∨ (frame ≠ [] ∧ radar_metrics_positive frame ∧ (length regions ≤ 4)%nat
     ∧ ∃ traces, regional_radar frame = Done traces).
Proof.
  intros regions. destruct (decide (frame = [])) as [->|Hne].
  { left. split; [done|]. apply regional_radar_empty. }
  right.
  assert (Hregions : region <$> region_metrics frame ≠ []).
  { intros Hnil%fmap_nil_inv. by apply region_metrics_nil in Hnil. }
  rewrite regional_radar_nonempty by done.
  destruct (decide (all_norms (region_metrics frame))) as [Hall|Hall].
  - right. pose proof Hall as Hpos%all_norms_iff.
    destruct (decide (length regions ≤ 4)%nat) as [Hlen|Hlen].
    + right. split_and!; try done.
      destruct (radar_traces_done (region_metrics frame) 0
                  (region <$> region_metrics frame) Hall)
        as (traces & -> & _); [apply region_rows_found| |by eexists].
      by rewrite region_metrics_regions.
    + left. split_and!; [done..|lia|].
      apply radar_traces_index_error; [done|apply region_rows_found|done|].
      rewrite region_metrics_regions. fold regions. lia.
  - left. split; [done|]. split; [by rewrite <- all_norms_iff|].
    pose proof (region_rows_found frame) as Hrows.
    destruct (region <$> region_metrics frame) as [|reg rest]; [done|].
    apply Forall_cons in Hrows as [Hrow _].
    by apply radar_traces_key_error.
Qed.

(** X7. [create_regional_radar_chart] returns its figure exactly when
    the Filtered View has at most four regions, a region of positive
    sales, a region of positive profit and a delivery on time, or when
    the view is empty and pandas makes the aggregate of no group a
    column of numbers (the figure has no trace then); in every other
    case it raises, on the empty view under the other pandas a
    [TypeError]. *)
Theorem regional_radar_draws_iff self :
  let frame := filtered_df self in
  ((∃ traces, create_regional_radar_chart self = Done traces)
   ↔ (frame = [] ∧ empty_aggregate_keeps_str = false)
     ∨ ((length (groupby_keys customer_region frame) ≤ 4)%nat
        ∧ radar_metrics_positive frame))
  ∧ (frame = [] →
     create_regional_radar_chart self
     = if empty_aggregate_keeps_str then Failed TypeError else Done []).
Proof.
  intros frame. unfold create_regional_radar_chart. fold frame.
  assert (Hempty : ¬ radar_metrics_positive []).
  { intros (_ & _ & Hon_time). by apply Exists_nil in Hon_time. }
  split; [|intros ->; apply regional_radar_empty].
  destruct (regional_radar_cases frame)
    as [[-> ->]|[(Hne & Hpos & column & ->)
       |[(Hne & Hpos & Hlen & ->)|(Hne & Hpos & Hlen & traces & ->)]]].
  - destruct empty_aggregate_keeps_str.
    + split; [by intros [? ?]|]. intros [[_ ?]|[_ ?]]; done.
    + split; [by left|]. by eexists.
  - split; [by intros [? ?]|]. intros [[? _]|[_ ?]]; done.
  - split; [by intros [? ?]|]. intros [[? _]|[? _]]; [done|lia].
  - split; [by right|]. by eexists.
Qed.

(** X8. On a Filtered View that is not empty and lacks a region of
    positive sales, a region of positive profit or a delivery on time
    (as after the selection of the late deliveries only),
    [create_regional_radar_chart] raises a [KeyError]: the normalised
    column that it reads was never added. *)
Theorem regional_radar_key_error self :
  filtered_df self ≠ [] →
  ¬ radar_metrics_positive (filtered_df self) →
  ∃ column, create_regional_radar_chart self = Failed (KeyError column).
Proof.
  intros Hne Hpos. unfold create_regional_radar_chart.
  destruct (regional_radar_cases (filtered_df self))
    as [[? _]|[(_ & _ & Hkey)|[(_ & ? & _)|(_ & ? & _)]]]; done.
Qed.

(** X9. On a Filtered View with five regions or more, which has a
    region of positive sales, a region of positive profit and a
    delivery on time, [create_regional_radar_chart] raises an
    [IndexError]: the list of colours has four entries. *)
Theorem regional_radar_index_error self :
  radar_metrics_positive (filtered_df self) →
  (4 < length (groupby_keys customer_region (filtered_df self)))%nat →
  create_regional_radar_chart self = Failed ListIndexError.
Proof.
  intros Hpos Hlen. unfold create_regional_radar_chart.
  destruct (regional_radar_cases (filtered_df self))
    as [[Hnil _]|[(_ & ? & _)|[(_ & _ & _ & ?)|(_ & _ & ? & _)]]];
    [|done|done|lia].
  rewrite Hnil in Hlen. cbn in Hlen. lia.
Qed.

(** *** The traces *)

Lemma norm_value_le_100 table col m :
  is_Some (norm_column table col) →
  m ∈ table →
  (norm_value table col m ≤ Qc_of_Z 100)%Qc.
Proof.
  intros [values (max_val & Hmax & Hpos & _)%norm_column_values] Hm.
  unfold norm_value. rewrite Hmax. apply Qc_share_le_100; [done|].
  apply series_max_Some in Hmax as [_ Hle]. rewrite Forall_forall in Hle.
  apply Hle. by apply list_elem_of_fmap_2.
Qed.

Lemma norm_value_attained table col :
  is_Some (norm_column table col) →
  ∃ m, m ∈ table ∧ norm_value table col m = Qc_of_Z 100.
Proof.
  intros [values (max_val & Hmax & Hpos & _)%norm_column_values].
  pose proof Hmax as [(m & Hm & Hin)%list_elem_of_fmap _]%series_max_Some.
  exists m. split; [done|]. unfold norm_value. rewrite Hmax. subst max_val.
  by apply Qc_share_self.
Qed.

(** What the traces hold, when the loop has returned them. *)
Lemma radar_traces_contents table (regions : list string) traces :
  all_norms table →
  Forall2 (λ reg t,
    trace_name t = reg
    ∧ trace_theta t = categories
    ∧ ∃ m, region_row table reg = Some m
           ∧ trace_r t = (λ col, norm_value table col m) <$> metric_columns)
    regions traces →
  trace_name <$> traces = regions
  ∧ Forall (λ t, trace_theta t = categories
                 ∧ length (trace_r t) = 5%nat
                 ∧ Forall (λ v, v ≤ Qc_of_Z 100)%Qc (trace_r t)) traces.
Proof.
  intros Hall. induction 1 as [|reg t regions traces Ht _ [IH1 IH2]].
  { by split. }
  destruct Ht as (Hname & Htheta & m & Hrow & Hr).
  split; [by rewrite fmap_cons, Hname, IH1|].
  constructor; [|done]. split_and!; [done|by rewrite Hr|].
  rewrite Hr. apply Forall_fmap, Forall_forall. intros col Hcol. simpl.
  apply norm_value_le_100.
  - unfold all_norms in Hall. rewrite Forall_forall in Hall. by apply Hall.
  - by apply region_row_Some in Hrow as [? _].
Qed.

(** On each axis some trace reaches 100. *)
Lemma radar_traces_attained table (regions : list string) traces i col :
  all_norms table →
  NoDup (region <$> table) →
  regions = region <$> table →
  Forall2 (λ reg t,
    trace_name t = reg
    ∧ trace_theta t = categories
    ∧ ∃ m, region_row table reg = Some m
           ∧ trace_r t = (λ col, norm_value table col m) <$> metric_columns)
    regions traces →
  metric_columns !! i = Some col →
  Exists (λ t, trace_r t !! i = Some (Qc_of_Z 100)) traces.
Proof.
  intros Hall Hnd -> Htraces Hcol.
  assert (Hnorm : is_Some (norm_column table col)).
  { unfold all_norms in Hall. rewrite Forall_forall in Hall.
    apply Hall. by eapply list_elem_of_lookup_2. }
  destruct (norm_value_attained _ _ Hnorm) as (m & Hm & Hvalue).
  assert (Hreg : region m ∈ region <$> table) by by apply list_elem_of_fmap_2.
  apply list_elem_of_lookup in Hreg as [j Hj].
  destruct (Forall2_lookup_l _ _ _ _ _ Htraces Hj)
    as (t & Ht & _ & _ & m' & Hrow & Hr).
  rewrite (region_row_NoDup _ _ Hnd Hm) in Hrow. injection Hrow as <-.
  apply Exists_exists. exists t. split; [by eapply list_elem_of_lookup_2|].
  by rewrite Hr, list_lookup_fmap, Hcol; simpl; rewrite Hvalue.
Qed.

(** X10. When [create_regional_radar_chart] returns its figure, the
    traces are named after the regions of the Filtered View in
    ascending order and take the colours of the list in its order; each
    has the five axes and five values, none above 100, and unless
    there is no trace at all, some trace reaches 100 on each axis. *)
Theorem regional_radar_traces self traces :
  create_regional_radar_chart self = Done traces →
  trace_name <$> traces = groupby_keys customer_region (filtered_df self)
  ∧ trace_color <$> traces = take (length traces) colors
  ∧ Forall (λ t, trace_theta t = categories
                 ∧ length (trace_r t) = 5%nat
                 ∧ Forall (λ v, v ≤ Qc_of_Z 100)%Qc (trace_r t)) traces
  ∧ (traces = []
     ∨ Forall (λ i, Exists (λ t, trace_r t !! i = Some (Qc_of_Z 100)) traces)
              [0; 1; 2; 3; 4]%nat).
Proof.
  unfold create_regional_radar_chart. set (frame := filtered_df self).
  intros Hdone.
  destruct (regional_radar_cases frame)
    as [[Hnil Hempty]|[(_ & _ & column & Hkey)
       |[(_ & _ & _ & Hindex)|(Hne & Hpos & Hlen & _)]]];
    [|congruence|congruence|].
  { rewrite Hempty in Hdone. destruct empty_aggregate_keeps_str; [done|].
    injection Hdone as <-. rewrite Hnil.
    split_and!; [done..|by left]. }
  apply all_norms_iff in Hpos.
  destruct (radar_traces_done (region_metrics frame) 0
              (region <$> region_metrics frame) Hpos)
    as (traces' & Hrun & Htraces & Hcolors); [apply region_rows_found| |].
  { by rewrite region_metrics_regions. }
  rewrite regional_radar_nonempty, Hrun in Hdone by done.
  injection Hdone as ->.
  destruct (radar_traces_contents _ _ _ Hpos Htraces) as [Hnames Hvalues].
  assert (Hlength : length traces = length (region <$> region_metrics frame)).
  { by rewrite <- Hnames, !length_fmap. }
  split_and!.
  - by rewrite Hnames, region_metrics_regions.
  - by rewrite Hcolors, Hlength.
  - done.
  - right.
    assert (Haxis : ∀ i col, metric_columns !! i = Some col →
      Exists (λ t, trace_r t !! i = Some (Qc_of_Z 100)) traces).
    { intros i col Hcol.
      apply (radar_traces_attained (region_metrics frame)
               (region <$> region_metrics frame) traces i col Hpos);
        [|done..].
      rewrite region_metrics_regions. apply groupby_keys_NoDup. }
    repeat (constructor; [by eapply Haxis|]). constructor.
Qed.

End Radar.

(** ** More on the KPIs *)

Lemma Qc_of_nat_le n m : (n ≤ m)%nat → (Qc_of_nat n ≤ Qc_of_nat m)%Qc.
Proof.
  unfold Qc_of_nat, Qc_of_Z, Qcle, Q2Qc; cbn [this].
  rewrite !Qred_correct. unfold Qle; simpl. lia.
Qed.

Lemma Qc_share_nonneg (a b : Qc) :
  (0 ≤ a)%Qc → (0 < b)%Qc → (0 ≤ a / b * Qc_of_Z 100)%Qc.
Proof.
  unfold Qc_of_Z, Qclt, Qcle, Qcdiv, Qcmult, Qcinv, Q2Qc; cbn [this].
  rewrite !Qred_correct. intros Ha Hb.
  pose proof (Qinv_lt_0_compat _ Hb) as Hi.
  change (inject_Z 100) with 100%Q.
  revert Hi. generalize (/ b)%Q. intros i Hi. nra.
Qed.

Lemma count_status_le status frame :
  (count_status status frame ≤ length frame)%nat.
Proof. apply length_filter. Qed.

(** Records of two different statuses are counted apart. *)
Lemma count_status_disjoint s1 s2 frame :
  s1 ≠ s2 →
  (count_status s1 frame + count_status s2 frame ≤ length frame)%nat.
Proof.
  intros Hne. unfold count_status.
  induction frame as [|r frame IH]; [done|].
  rewrite !filter_cons.
  destruct (decide (delivery_status r = s1)) as [H1|H1],
    (decide (delivery_status r = s2)) as [H2|H2]; simpl; try lia.
  congruence.
Qed.

(** X11. The KPIs of every Filtered View hang together: the on-time
    rate lies between 0 and 100, it is above 0 exactly when some
    delivery of the view is on time, and the late deliveries and the
    deliveries on time together are at most the orders. *)
Theorem compute_kpis_consistent self :
  ∃ k,
    compute_kpis self = (Return k, self)
    ∧ (0 ≤ on_time_rate k)%Qc
    ∧ (on_time_rate k ≤ Qc_of_Z 100)%Qc
    ∧ ((0 < on_time_rate k)%Qc ↔
       ∃ r, r ∈ filtered_df self ∧ delivery_status r = "Shipping on time")
    ∧ (late_deliveries k
       + count_status "Shipping on time" (filtered_df self)
       ≤ total_orders k)%nat.
Proof.
  eexists. rewrite compute_kpis_kpis, kpis_returns.
  split; [reflexivity|].
  cbn [avg_order_value total_orders total_revenue on_time_rate
       late_deliveries].
  set (frame := filtered_df self).
  split_and!.
  - case_bool_decide as Hlen; [|done].
    apply Qc_share_nonneg; [|by apply Qc_of_nat_pos].
    change 0%Qc with (Qc_of_nat 0). apply Qc_of_nat_le. lia.
  - case_bool_decide as Hlen; [|done].
    apply Qc_share_le_100; [by apply Qc_of_nat_pos|].
    apply Qc_of_nat_le, count_status_le.
  - rewrite <- Exists_exists, <- count_status_pos. case_bool_decide as Hlen.
    + rewrite Qc_share_pos by by apply Qc_of_nat_pos.
      apply Qc_of_nat_pos.
    + split; [intros Hlt; by apply Qclt_not_le in Hlt|].
      pose proof (count_status_le "Shipping on time" frame). lia.
  - by apply count_status_disjoint.
Qed.

(** ** More on the filter engine *)

Section FilterComposition.

Context `{ToDatetime}.

(** X12. Two calls of [set_filters] in a row end as the one call with
    the merged keyword arguments (the later call wins on a common
    key): the same outcome, the same filters and, when the call
    returns, the same Filtered View. *)
Theorem set_filters_twice kwargs1 kwargs2 self :
  let two := set_filters kwargs2 (set_filters kwargs1 self).2 in
  let one := set_filters (kwargs2 ∪ kwargs1) self in
  two.1 = one.1
  ∧ df two.2 = df one.2
  ∧ filters two.2 = filters one.2
  ∧ match one.1 with
    | Return _ => filtered_df two.2 = filtered_df one.2
    | Raise _ => True
    end.
Proof.
  intros two one. unfold two, one.
  rewrite (set_filters_unfold kwargs2), (set_filters_unfold (kwargs2 ∪ kwargs1)).
  rewrite !apply_filters_view. cbn [df filters filtered_df].
  assert (Hdf : df (set_filters kwargs1 self).2 = df self).
  { rewrite set_filters_unfold. by rewrite apply_filters_df. }
  assert (Hfs : filters (set_filters kwargs1 self).2 = kwargs1 ∪ filters self).
  { rewrite set_filters_unfold. by rewrite apply_filters_filters. }
  rewrite Hdf, Hfs, (assoc_L (∪)).
  by destruct (view _ _).
Qed.

(** X13. In every state of the object, from its construction on and
    through any calls of [set_filters] and [apply_filters], also those
    that raise, the stored view is a sublist of the full record set
    and the six filter keys are in the dictionary. *)
Theorem reachable_invariant self :
  reachable self →
  filtered_df self `sublist_of` df self
  ∧ Forall (λ key, is_Some (filters self !! key)) filter_keys.
Proof.
  intros Hreach. split; [by apply reachable_view_sublist|].
  induction Hreach as [loaded|kwargs self _ IH|self _ IH].
  - by repeat constructor.
  - rewrite set_filters_unfold, apply_filters_filters. cbn [filters].
    eapply Forall_impl; [exact IH|]. simpl. intros key [v Hv].
    rewrite lookup_union, Hv. destruct (kwargs !! key); by eexists.
  - by rewrite apply_filters_filters.
Qed.

Lemma filter_none {A} (P : A → Prop) `{!∀ x, Decision (P x)} (l : list A) :
  (∀ x, x ∈ l → ¬ P x) → filter P l = [].
Proof.
  induction l as [|x l IH]; intros HP; [done|].
  rewrite filter_cons_False by (apply HP; left).
  apply IH. intros y Hy. apply HP. by right.
Qed.

(** X14. A date range whose end lies before its start is taken as it
    is: [apply_filters] returns, and the Filtered View is empty. *)
Theorem inverted_date_range_empties lo hi rest self :
  dict_get (filters self) "date_range" = PySeq (ADate lo :: ADate hi :: rest) →
  hi < lo →
  apply_filters self =
  (Return tt, {| df := df self; filtered_df := []; filters := filters self |}).
Proof.
  intros Hdate Hlt.
  assert (Hwf : well_formed (filters self)).
  { unfold well_formed, date_interval. rewrite Hdate. simpl. eauto. }
  rewrite apply_filters_view, (view_satisfies _ _ Hwf).
  do 2 f_equal. apply filter_none. intros r _ [Hin _].
  unfold in_date_range, date_interval in Hin. rewrite Hdate in Hin.
  simpl in Hin. destruct Hin as [Hlo Hhi].
  destruct (order_date r) as [d|]; simpl in *; [lia|done].
Qed.

(** X15. While a date range is set, the Filtered View that
    [apply_filters] stores holds no record without an order date. *)
Theorem date_range_drops_undated self self' :
  truthy (dict_get (filters self) "date_range") = true →
  apply_filters self = (Return tt, self') →
  Forall (λ r, is_Some (order_date r)) (filtered_df self').
Proof.
  intros Htruthy. rewrite apply_filters_view. unfold view.
  destruct (date_stage _ (df self)) as [frame1|] eqn:Hdate;
    [|by unfold mbind, result_bind].
  unfold mbind, result_bind, mret, result_ret. intros Hrun.
  assert (Hview : filtered_df self'
                  = foldl (filter_column (filters self)) frame1
                          categorical_columns) by (by inversion Hrun).
  rewrite Hview. clear Hrun Hview.
  assert (Hdated : Forall (λ r, is_Some (order_date r)) frame1).
  { unfold date_stage in Hdate. rewrite Htruthy in Hdate.
    unfold mbind, result_bind in Hdate.
    destruct (getitem _ 0) as [a0|]; [|done].
    destruct (to_datetime a0) as [start_date|]; [|done].
    destruct (getitem _ 1) as [a1|]; [|done].
    destruct (to_datetime a1) as [end_date|]; [|done].
    injection Hdate as <-. apply Forall_forall. intros r Hr.
    apply list_elem_of_filter in Hr as [Hr _].
    apply andb_true_iff in Hr as [_ Hr]. unfold ts_le in Hr.
    destruct (order_date r); [by eexists|done]. }
  rewrite Forall_forall in Hdated |- *. intros r Hr. apply Hdated.
  eapply sublist_subseteq; [apply foldl_filter_column_sublist|done].
Qed.

End FilterComposition.

(** * The added properties on the sample data *)

Example late_only_view : filtered_df late_only = [order_late].
Proof. vm_compute. reflexivity. Qed.

Example late_only_radar release :
  @create_regional_radar_chart release late_only
  = Failed (KeyError "on_time_pct_norm").
Proof. vm_compute. reflexivity. Qed.

Example empty_view_radar :
  @create_regional_radar_chart pandas_2 (init []) = Done []
  ∧ @create_regional_radar_chart pandas_3 (init []) = Failed TypeError.
Proof. split; vm_compute; reflexivity. Qed.

Lemma page_defaults_filter_by_date_only_witness :
  let kwargs := page_defaults (PySeq [ADate 5; ADate 20]) sample_frame in
  @well_formed no_strings (kwargs ∪ filters (init sample_frame))
  ∧ @set_filters no_strings kwargs (init sample_frame) =
    (Return tt,
     {| df := sample_frame;
        filtered_df :=
          filter (@in_date_range no_strings
                    (kwargs ∪ filters (init sample_frame))) sample_frame;
        filters := kwargs ∪ filters (init sample_frame) |}).
Proof.
  intros kwargs.
  assert (Hwf : @well_formed no_strings (kwargs ∪ filters (init sample_frame))).
  { intros _. vm_compute. eauto. }
  split; [exact Hwf|].
  exact (@page_defaults_filter_by_date_only no_strings
           (PySeq [ADate 5; ADate 20]) (init sample_frame) Hwf).
Defined.

Lemma page_defaults_show_everything_witness :
  let kwargs := page_defaults (PySeq [ADate 10; ADate 30]) sample_frame in
  Forall (λ r, ts_leq (Some 10) (order_date r)
               ∧ ts_leq (order_date r) (Some 30)) sample_frame
  ∧ (@set_filters no_strings kwargs (init sample_frame)).1 = Return tt
  ∧ filtered_df (@set_filters no_strings kwargs (init sample_frame)).2
    = sample_frame
  ∧ (compute_kpis (@set_filters no_strings kwargs (init sample_frame)).2).1
    = kpis sample_frame.
Proof.
  intros kwargs.
  assert (Hcover : Forall (λ r, ts_leq (Some 10) (order_date r)
                                ∧ ts_leq (order_date r) (Some 30))
                          (df (init sample_frame))).
  { repeat constructor; simpl; lia. }
  split; [exact Hcover|].
  exact (@page_defaults_show_everything no_strings 10 30 (init sample_frame)
           Hcover).
Defined.

Lemma regional_radar_key_error_witness :
  filtered_df late_only ≠ []
  ∧ ¬ radar_metrics_positive (filtered_df late_only)
  ∧ ∃ column, @create_regional_radar_chart pandas_3 late_only
              = Failed (KeyError column).
Proof.
  assert (Hne : filtered_df late_only ≠ []).
  { rewrite late_only_view. discriminate. }
  assert (Hpos : ¬ radar_metrics_positive (filtered_df late_only)).
  { rewrite late_only_view. intros (_ & _ & Hon_time).
    apply Exists_exists in Hon_time as (r & Hr & Hstatus).
    apply list_elem_of_singleton in Hr as ->. discriminate. }
  split; [exact Hne|]. split; [exact Hpos|].
  exact (@regional_radar_key_error pandas_3 late_only Hne Hpos).
Defined.

Lemma regional_radar_index_error_witness :
  radar_metrics_positive (filtered_df (init five_regions))
  ∧ (4 < length (groupby_keys customer_region
                                (filtered_df (init five_regions))))%nat
  ∧ @create_regional_radar_chart pandas_3 (init five_regions)
    = Failed ListIndexError.
Proof.
  assert (Hpos : radar_metrics_positive (filtered_df (init five_regions))).
  { split_and!.
    - exists "East". vm_compute. reflexivity.
    - exists "East". vm_compute. reflexivity.
    - left. reflexivity. }
  assert (Hlen : (4 < length (groupby_keys customer_region
                                (filtered_df (init five_regions))))%nat).
  { vm_compute. lia. }
  split; [exact Hpos|]. split; [exact Hlen|].
  exact (@regional_radar_index_error pandas_3 (init five_regions) Hpos Hlen).
Defined.

Lemma regional_radar_traces_witness :
  let traces :=
    match @create_regional_radar_chart pandas_3 (init sample_frame) with
    | Done traces => traces
    | Failed _ => []
    end in
  @create_regional_radar_chart pandas_3 (init sample_frame) = Done traces
  ∧ trace_name <$> traces = ["East"; "West"]
  ∧ trace_name <$> traces
    = groupby_keys customer_region (filtered_df (init sample_frame))
  ∧ trace_color <$> traces = take (length traces) colors
  ∧ Forall (λ t, trace_theta t = categories
                 ∧ length (trace_r t) = 5%nat
                 ∧ Forall (λ v, v ≤ Qc_of_Z 100)%Qc (trace_r t)) traces
  ∧ (traces = []
     ∨ Forall (λ i, Exists (λ t, trace_r t !! i = Some (Qc_of_Z 100)) traces)
              [0; 1; 2; 3; 4]%nat).
Proof.
  intros traces.
  assert (Hdone : @create_regional_radar_chart pandas_3 (init sample_frame)
                  = Done traces).
  { vm_compute. reflexivity. }
  split; [exact Hdone|]. split; [vm_compute; reflexivity|].
  exact (@regional_radar_traces pandas_3 (init sample_frame) traces Hdone).
Defined.

Lemma reachable_invariant_witness :
  @reachable no_strings late_only
  ∧ filtered_df late_only `sublist_of` df late_only
  ∧ Forall (λ key, is_Some (filters late_only !! key)) filter_keys.
Proof.
  assert (Hreach : @reachable no_strings late_only).
  { unfold late_only. apply reachable_set_filters, reachable_init. }
  split; [exact Hreach|].
  exact (@reachable_invariant no_strings late_only Hreach).
Defined.

Lemma inverted_date_range_empties_witness :
  dict_get (filters inverted_range) "date_range"
  = PySeq (ADate 20 :: ADate 5 :: [])
  ∧ 5 < 20
  ∧ @apply_filters no_strings inverted_range =
    (Return tt, {| df := df inverted_range; filtered_df := [];
                   filters := filters inverted_range |}).
Proof.
  assert (Hdate : dict_get (filters inverted_range) "date_range"
                  = PySeq (ADate 20 :: ADate 5 :: [])).
  { vm_compute. reflexivity. }
  assert (Hlt : 5 < 20) by lia.
  split; [exact Hdate|]. split; [exact Hlt|].
  exact (@inverted_date_range_empties no_strings 20 5 [] inverted_range
           Hdate Hlt).
Defined.

Lemma date_range_drops_undated_witness :
  let self' := (@apply_filters no_strings sample_data).2 in
  truthy (dict_get (filters sample_data) "date_range") = true
  ∧ @apply_filters no_strings sample_data = (Return tt, self')
  ∧ Forall (λ r, is_Some (order_date r)) (filtered_df self').
Proof.
  intros self'.
  assert (Htruthy : truthy (dict_get (filters sample_data) "date_range") = true).
  { vm_compute. reflexivity. }
  assert (Hrun : @apply_filters no_strings sample_data = (Return tt, self')).
  { vm_compute. reflexivity. }
  split; [exact Htruthy|]. split; [exact Hrun|].
  exact (@date_range_drops_undated no_strings sample_data self' Htruthy Hrun).
Defined.

(** ** The stacked bars of the deliveries by shipping type *)

(** A share is above 0 exactly when a record of the shipping type has
    the status. *)
Lemma crosstab_share_pos frame type status :
  type ∈ shipping_type <$> frame →
  (0 < crosstab_share frame type status)%Qc ↔
  ∃ r, r ∈ frame ∧ shipping_type r = type ∧ delivery_status r = status.
Proof.
  intros Htype. unfold crosstab_share.
  set (rows := group shipping_type type frame).
  assert (Hpos : (0 < Qc_of_nat (length rows))%Qc).
  { apply Qc_of_nat_pos. apply group_nonempty in Htype. fold rows in Htype.
    destruct rows; [done|simpl; lia]. }
  rewrite Qc_share_pos, Qc_of_nat_pos by done.
  change (length (group delivery_status status rows))
    with (count_status status rows).
  rewrite count_status_pos, Exists_exists. unfold rows, group.
  setoid_rewrite list_elem_of_filter. naive_solver.
Qed.

Lemma crosstab_share_bounds frame type status :
  type ∈ shipping_type <$> frame →
  (0 ≤ crosstab_share frame type status)%Qc
  ∧ (crosstab_share frame type status ≤ Qc_of_Z 100)%Qc.
Proof.
  intros Htype. unfold crosstab_share.
  set (rows := group shipping_type type frame).
  assert (Hpos : (0 < Qc_of_nat (length rows))%Qc).
  { apply Qc_of_nat_pos. apply group_nonempty in Htype. fold rows in Htype.
    destruct rows; [done|simpl; lia]. }
  split.
  - apply Qc_share_nonneg; [|done].
    change 0%Qc with (Qc_of_nat 0). apply Qc_of_nat_le. lia.
  - apply Qc_share_le_100; [done|]. apply Qc_of_nat_le.
    unfold group. apply length_filter.
Qed.

(** X16. [create_delivery_by_shipping_type_chart] draws one bar series
    for each delivery status of the Filtered View, in ascending order
    of the names, over its shipping types; every value lies between 0
    and 100, and a bar rises above 0 exactly where some record of the
    view has that shipping type and that status. *)
Theorem delivery_by_shipping_type_bars self :
  let frame := filtered_df self in
  let types := groupby_keys shipping_type frame in
  ∃ bars,
    delivery_by_shipping_type self = (Return bars, self)
    ∧ bar_name <$> bars = groupby_keys delivery_status frame
    ∧ Forall (λ b, bar_x b = types
                   ∧ length (bar_y b) = length types
                   ∧ Forall (λ v, 0 ≤ v ∧ v ≤ Qc_of_Z 100)%Qc (bar_y b)) bars
    ∧ Forall (λ b, ∀ i type, types !! i = Some type →
                ∃ v, bar_y b !! i = Some v
                  ∧ ((0 < v)%Qc ↔
                     ∃ r, r ∈ frame ∧ shipping_type r = type
                          ∧ delivery_status r = bar_name b)) bars.
Proof.
  intros frame types. eexists. split; [reflexivity|].
  fold frame. fold types.
  assert (Htypes : ∀ type, type ∈ types → type ∈ shipping_type <$> frame).
  { intros type. apply elem_of_groupby_keys. }
  split_and!.
  - rewrite <- list_fmap_compose. apply list_fmap_id.
  - apply Forall_fmap, Forall_forall. intros status _. simpl.
    split_and!; [done|by rewrite length_fmap|].
    apply Forall_fmap, Forall_forall. intros type Htype. simpl.
    apply crosstab_share_bounds. by apply Htypes.
  - apply Forall_fmap, Forall_forall. intros status _ i type Htype. simpl.
    eexists. rewrite list_lookup_fmap, Htype. split; [reflexivity|].
    apply crosstab_share_pos, Htypes. by eapply list_elem_of_lookup_2.
Qed.

(** ** Sums by two keys *)

Lemma groupby2_keys_NoDup key1 key2 frame :
  NoDup (groupby2_keys key1 key2 frame).
Proof.
  unfold groupby2_keys. rewrite merge_sort_Permutation. apply NoDup_unique.
Qed.

Lemma elem_of_groupby2_keys key1 key2 frame k :
  k ∈ groupby2_keys key1 key2 frame ↔ k ∈ (λ r, (key1 r, key2 r)) <$> frame.
Proof.
  unfold groupby2_keys. by rewrite merge_sort_Permutation, elem_of_unique.
Qed.

Lemma groupby2_sum_NoDup key1 key2 value frame :
  NoDup (groupby2_sum key1 key2 value frame).
Proof.
  unfold groupby2_sum. apply NoDup_fmap_2; [|apply groupby2_keys_NoDup].
  by intros k1 k2 [= ->].
Qed.

Lemma elem_of_groupby2_sum key1 key2 value frame bar :
  bar ∈ groupby2_sum key1 key2 value frame ↔
  bar.1 ∈ (λ r, (key1 r, key2 r)) <$> frame
  ∧ bar.2 = series_sum
              (value <$> filter (λ r, (key1 r, key2 r) = bar.1) frame).
Proof.
  unfold groupby2_sum. rewrite list_elem_of_fmap.
  setoid_rewrite elem_of_groupby2_keys. split.
  - by intros (k & -> & Hk).
  - intros [Hk Hsum]. exists bar.1. split; [|done].
    destruct bar as [k v]. simpl in *. by rewrite Hsum.
Qed.

(** Grouping by the two columns in the other order gives the same
    bars, their labels exchanged. *)
Lemma groupby2_sum_swap key1 key2 value frame :
  swap_labels <$> groupby2_sum key1 key2 value frame
  ≡ₚ groupby2_sum key2 key1 value frame.
Proof.
  apply NoDup_Permutation.
  - apply NoDup_fmap_2; [|apply groupby2_sum_NoDup].
    intros [[a1 b1] v1] [[a2 b2] v2]. unfold swap_labels. simpl. congruence.
  - apply groupby2_sum_NoDup.
  - intros [[b a] v]. rewrite list_elem_of_fmap, elem_of_groupby2_sum. simpl.
    assert (Hrows : filter (λ r, (key2 r, key1 r) = (b, a)) frame
                    = filter (λ r, (key1 r, key2 r) = (a, b)) frame).
    { apply list_filter_iff. intros r. split; congruence. }
    rewrite Hrows. split.
    + intros ([[a' b'] v'] & [= -> -> ->] & Hbar).
      apply elem_of_groupby2_sum in Hbar as [Hkey Hsum]. simpl in *.
      split; [|done].
      apply list_elem_of_fmap in Hkey as (r & [= -> ->] & Hr).
      by apply (list_elem_of_fmap_2 (λ r, (key2 r, key1 r))).
    + intros [Hkey Hsum]. exists (a, b, v). split; [done|].
      apply elem_of_groupby2_sum. simpl. split; [|done].
      apply list_elem_of_fmap in Hkey as (r & [= -> ->] & Hr).
      by apply (list_elem_of_fmap_2 (λ r, (key1 r, key2 r))).
Qed.

(** X17. The bar charts of [create_sales_by_segment_chart] and of
    [create_segment_category_preference_chart] show the same bars, one
    for each pair of a category and a segment that occurs in the
    Filtered View and no other, with the labels exchanged and in
    another order. *)
Theorem segment_charts_agree self :
  ∃ by_category by_segment,
    segment_sales self = (Return by_category, self)
    ∧ segment_category self = (Return by_segment, self)
    ∧ swap_labels <$> by_category ≡ₚ by_segment
    ∧ NoDup by_category.*1
    ∧ NoDup by_segment.*1
    ∧ (∀ category segment,
         (category, segment) ∈ by_category.*1 ↔
         ∃ r, r ∈ filtered_df self
              ∧ category_name r = category ∧ customer_segment r = segment)
    ∧ (∀ category segment,
         (segment, category) ∈ by_segment.*1 ↔
         ∃ r, r ∈ filtered_df self
              ∧ category_name r = category ∧ customer_segment r = segment).
Proof.
  eexists _, _. split; [reflexivity|]. split; [reflexivity|].
  assert (Hkeys : ∀ key1 key2 value frame,
    (groupby2_sum key1 key2 value frame).*1 = groupby2_keys key1 key2 frame).
  { intros. unfold groupby2_sum. rewrite <- list_fmap_compose.
    apply list_fmap_id. }
  rewrite !Hkeys. split_and!.
  - apply groupby2_sum_swap.
  - apply groupby2_keys_NoDup.
  - apply groupby2_keys_NoDup.
  - intros category segment.
    rewrite elem_of_groupby2_keys, list_elem_of_fmap. naive_solver.
  - intros category segment.
    rewrite elem_of_groupby2_keys, list_elem_of_fmap. naive_solver.
Qed.

